(** * Groundwater salinisation dashboard: the scoring core of [app.py]

    The dashboard reads a table of hydrochemical measurements into a pandas
    data frame, converts concentrations to meq/L, derives two ionic ratios,
    classifies every row and prints one overall recommendation.

    pandas stores numeric columns as IEEE-754 binary64 values, so cells are
    modelled by Rocq's primitive [float]: division by zero yields an
    infinity or a NaN, and every comparison with a NaN is false, exactly as
    in the running program.  The integer literals the program compares and
    divides cells with (1500, 23, ...) are converted to binary64 by numpy
    and are written as floats.  Scores are Python integers and are modelled
    by [Z]. *)

From Stdlib Require Import ZArith List String Bool Lia.
From Stdlib Require Import Permutation Sorted.
From Stdlib Require Import Floats.
Import ListNotations.

Set Warnings "-inexact-float".

(** ** Order facts about binary64 comparisons

    The comparison primitives are specified by [SFcompare] on the
    structural view [spec_float]; the lemmas below lift the facts the
    classifier and the decision logic rely on. *)

Module FloatOrder.

Local Open Scope float_scope.

(** Python's [a > b] and [a >= b]. *)
Definition gtb (a b : float) : bool := b <? a.
Definition geb (a b : float) : bool := b <=? a.

(** A key that orders the finite and infinite values as [SFcompare] does:
    class (-inf, negative, zero, positive, +inf), then exponent, then
    mantissa, the last two negated for negative numbers. *)
Definition key (x : spec_float) : option (Z * Z * Z) :=
  match x with
  | S754_nan => None
  | S754_infinity true => Some (-2, 0, 0)%Z
  | S754_infinity false => Some (2, 0, 0)%Z
  | S754_zero _ => Some (0, 0, 0)%Z
  | S754_finite true m e => Some (-1, - e, - Zpos m)%Z
  | S754_finite false m e => Some (1, e, Zpos m)%Z
  end.

Definition lex_compare (a b : Z * Z * Z) : comparison :=
  let '(a1, a2, a3) := a in
  let '(b1, b2, b3) := b in
  match (a1 ?= b1)%Z with
  | Eq => match (a2 ?= b2)%Z with
          | Eq => (a3 ?= b3)%Z
          | c => c
          end
  | c => c
  end.

Lemma SFcompare_key (x y : spec_float) :
  SFcompare x y =
  match key x, key y with
  | Some a, Some b => Some (lex_compare a b)
  | _, _ => None
  end.
Proof.
  destruct x as [sx|sx| |sx mx ex], y as [sy|sy| |sy my ey]; simpl;
    try reflexivity;
    try (destruct sx; reflexivity);
    try (destruct sy; reflexivity);
    try (destruct sx, sy; reflexivity).
  change (Pos.compare_cont Eq mx my) with (Pos.compare mx my).
  destruct sx, sy; simpl; try reflexivity.
  rewrite (Z.compare_opp ex ey), (Z.compare_antisym ex ey).
  destruct (ex ?= ey)%Z; reflexivity.
Qed.

Lemma lex_compare_le_trans (a b c : Z * Z * Z) :
  lex_compare a b <> Gt -> lex_compare b c <> Gt -> lex_compare a c <> Gt.
Proof.
  destruct a as [[a1 a2] a3], b as [[b1 b2] b3], c as [[c1 c2] c3].
  unfold lex_compare.
  destruct (Z.compare_spec a1 b1), (Z.compare_spec b1 c1),
    (Z.compare_spec a1 c1); try lia; try discriminate; try congruence;
    destruct (Z.compare_spec a2 b2), (Z.compare_spec b2 c2),
      (Z.compare_spec a2 c2); try lia; try discriminate; try congruence;
    destruct (Z.compare_spec a3 b3), (Z.compare_spec b3 c3),
      (Z.compare_spec a3 c3); try lia; try discriminate; congruence.
Qed.

Lemma lex_compare_lt_le_trans (a b c : Z * Z * Z) :
  lex_compare a b = Lt -> lex_compare b c <> Gt -> lex_compare a c = Lt.
Proof.
  destruct a as [[a1 a2] a3], b as [[b1 b2] b3], c as [[c1 c2] c3].
  unfold lex_compare.
  destruct (Z.compare_spec a1 b1), (Z.compare_spec b1 c1),
    (Z.compare_spec a1 c1); try lia; try discriminate; try congruence;
    destruct (Z.compare_spec a2 b2), (Z.compare_spec b2 c2),
      (Z.compare_spec a2 c2); try lia; try discriminate; try congruence;
    destruct (Z.compare_spec a3 b3), (Z.compare_spec b3 c3),
      (Z.compare_spec a3 c3); try lia; try discriminate; congruence.
Qed.

Lemma lex_compare_le_lt_trans (a b c : Z * Z * Z) :
  lex_compare a b <> Gt -> lex_compare b c = Lt -> lex_compare a c = Lt.
Proof.
  destruct a as [[a1 a2] a3], b as [[b1 b2] b3], c as [[c1 c2] c3].
  unfold lex_compare.
  destruct (Z.compare_spec a1 b1), (Z.compare_spec b1 c1),
    (Z.compare_spec a1 c1); try lia; try discriminate; try congruence;
    destruct (Z.compare_spec a2 b2), (Z.compare_spec b2 c2),
      (Z.compare_spec a2 c2); try lia; try discriminate; try congruence;
    destruct (Z.compare_spec a3 b3), (Z.compare_spec b3 c3),
      (Z.compare_spec a3 c3); try lia; try discriminate; congruence.
Qed.

Lemma lex_compare_refl (a : Z * Z * Z) : lex_compare a a = Eq.
Proof.
  destruct a as [[a1 a2] a3]. unfold lex_compare.
  now rewrite !Z.compare_refl.
Qed.

Lemma lex_compare_antisym (a b : Z * Z * Z) :
  lex_compare b a = CompOpp (lex_compare a b).
Proof.
  destruct a as [[a1 a2] a3], b as [[b1 b2] b3]. unfold lex_compare.
  rewrite (Z.compare_antisym a1 b1), (Z.compare_antisym a2 b2),
    (Z.compare_antisym a3 b3).
  destruct (a1 ?= b1)%Z, (a2 ?= b2)%Z, (a3 ?= b3)%Z; reflexivity.
Qed.

(** [is_num x] holds of every value but NaN (Python: [x == x]). *)
Definition is_num (x : float) : bool := x =? x.

(** Moves a goal about primitive comparisons to the keys of the operands. *)
Ltac to_keys :=
  unfold gtb, geb, is_num in *;
  rewrite ?ltb_spec, ?leb_spec, ?eqb_spec in *;
  unfold SFltb, SFleb, SFeqb in *;
  rewrite ?SFcompare_key in *.

Lemma is_num_iff_key (x : float) :
  is_num x = true <-> key (Prim2SF x) <> None.
Proof.
  to_keys. destruct (key (Prim2SF x)) as [k|].
  - rewrite lex_compare_refl. split; [discriminate | reflexivity].
  - split; [discriminate | congruence].
Qed.

Lemma leb_is_num (a b : float) :
  (a <=? b) = true -> is_num a = true /\ is_num b = true.
Proof.
  rewrite !is_num_iff_key. to_keys.
  destruct (key (Prim2SF a)), (key (Prim2SF b)); try discriminate.
  intros _. split; discriminate.
Qed.

Lemma ltb_is_num (a b : float) :
  (a <? b) = true -> is_num a = true /\ is_num b = true.
Proof.
  rewrite !is_num_iff_key. to_keys.
  destruct (key (Prim2SF a)), (key (Prim2SF b)); try discriminate.
  intros _. split; discriminate.
Qed.

Lemma ltb_leb (a b : float) : (a <? b) = true -> (a <=? b) = true.
Proof.
  to_keys. destruct (key (Prim2SF a)), (key (Prim2SF b)); try discriminate.
  destruct (lex_compare _ _); congruence.
Qed.

(** Exclusion: [a <= b] rules out [b < a]. *)
Lemma leb_not_gtb (a b : float) : (a <=? b) = true -> (b <? a) = false.
Proof.
  to_keys. destruct (key (Prim2SF a)) as [ka|], (key (Prim2SF b)) as [kb|];
    try discriminate.
  rewrite (lex_compare_antisym ka kb).
  destruct (lex_compare ka kb); simpl; congruence.
Qed.

Lemma ltb_not_geb (a b : float) : (a <? b) = true -> (b <=? a) = false.
Proof.
  to_keys. destruct (key (Prim2SF a)) as [ka|], (key (Prim2SF b)) as [kb|];
    try discriminate.
  rewrite (lex_compare_antisym ka kb).
  destruct (lex_compare ka kb); simpl; congruence.
Qed.

(** Totality on numbers: if neither operand is a NaN, a failed [a < b]
    means [b <= a]. *)
Lemma not_ltb_geb (a b : float) :
  is_num a = true -> is_num b = true -> (a <? b) = false -> (b <=? a) = true.
Proof.
  rewrite !is_num_iff_key. to_keys.
  destruct (key (Prim2SF a)) as [ka|], (key (Prim2SF b)) as [kb|];
    try congruence.
  intros _ _. rewrite (lex_compare_antisym ka kb).
  destruct (lex_compare ka kb); simpl; congruence.
Qed.

Lemma not_leb_gtb (a b : float) :
  is_num a = true -> is_num b = true -> (a <=? b) = false -> (b <? a) = true.
Proof.
  rewrite !is_num_iff_key. to_keys.
  destruct (key (Prim2SF a)) as [ka|], (key (Prim2SF b)) as [kb|];
    try congruence.
  intros _ _. rewrite (lex_compare_antisym ka kb).
  destruct (lex_compare ka kb); simpl; congruence.
Qed.

Lemma leb_trans (a b c : float) :
  (a <=? b) = true -> (b <=? c) = true -> (a <=? c) = true.
Proof.
  to_keys.
  destruct (key (Prim2SF a)) as [ka|], (key (Prim2SF b)) as [kb|],
    (key (Prim2SF c)) as [kc|]; try discriminate.
  intros Hab Hbc.
  assert (H := lex_compare_le_trans ka kb kc).
  destruct (lex_compare ka kb), (lex_compare kb kc), (lex_compare ka kc);
    try discriminate; try reflexivity; exfalso; apply H; congruence.
Qed.

Lemma ltb_leb_trans (a b c : float) :
  (a <? b) = true -> (b <=? c) = true -> (a <? c) = true.
Proof.
  to_keys.
  destruct (key (Prim2SF a)) as [ka|], (key (Prim2SF b)) as [kb|],
    (key (Prim2SF c)) as [kc|]; try discriminate.
  intros Hab Hbc.
  assert (H := lex_compare_lt_le_trans ka kb kc).
  destruct (lex_compare ka kb), (lex_compare kb kc); try discriminate;
    rewrite H; congruence.
Qed.

Lemma leb_ltb_trans (a b c : float) :
  (a <=? b) = true -> (b <? c) = true -> (a <? c) = true.
Proof.
  to_keys.
  destruct (key (Prim2SF a)) as [ka|], (key (Prim2SF b)) as [kb|],
    (key (Prim2SF c)) as [kc|]; try discriminate.
  intros Hab Hbc.
  assert (H := lex_compare_le_lt_trans ka kb kc).
  destruct (lex_compare ka kb), (lex_compare kb kc); try discriminate;
    rewrite H; congruence.
Qed.

End FloatOrder.

(** ** Signs of rounded results

    Division and multiplication round through [binary_round_aux]; on a
    mantissa that is not negative it yields no NaN and keeps the sign.  An
    integer below 2^53 is converted exactly. *)

Module FloatRounding.

Local Open Scope float_scope.

(** The result of an operation is not a NaN and carries the sign [sx]. *)
Definition signed (sx : bool) (v : spec_float) : Prop :=
  match v with
  | S754_nan => False
  | S754_zero s | S754_infinity s | S754_finite s _ _ => s = sx
  end.

Lemma iter_pos_invariant {A : Type} (P : A -> Prop) (f : A -> A) :
  (forall x, P x -> P (f x)) -> forall n x, P x -> P (iter_pos f n x).
Proof.
  intros Hf. induction n as [n IH | n IH |]; intros x Hx; simpl; auto.
Qed.

Lemma shr_1_nonneg (mrs : shr_record) :
  (0 <= shr_m mrs)%Z -> (0 <= shr_m (shr_1 mrs))%Z.
Proof.
  destruct mrs as [m r s]. simpl.
  destruct m as [| [p | p |] | p]; simpl; lia.
Qed.

Lemma shr_fexp_nonneg (m e : Z) (l : location) :
  (0 <= m)%Z -> (0 <= shr_m (fst (shr_fexp prec emax m e l)))%Z.
Proof.
  intros Hm. unfold shr_fexp, shr.
  assert (H0 : (0 <= shr_m (shr_record_of_loc m l))%Z)
    by (destruct l as [| []]; exact Hm).
  destruct (fexp prec emax (Zdigits2 m + e) - e)%Z; simpl; try exact H0.
  apply (iter_pos_invariant (fun r => (0 <= shr_m r)%Z)); [| exact H0].
  apply shr_1_nonneg.
Qed.

Lemma round_nearest_even_nonneg (m : Z) (l : location) :
  (0 <= m)%Z -> (0 <= round_nearest_even m l)%Z.
Proof.
  intros Hm. unfold round_nearest_even.
  destruct l as [| []]; try destruct (Z.even m); lia.
Qed.

Lemma binary_round_aux_signed (sx : bool) (mx ex : Z) (lx : location) :
  (0 <= mx)%Z -> signed sx (binary_round_aux prec emax sx mx ex lx).
Proof.
  intros Hm. unfold binary_round_aux.
  pose proof (shr_fexp_nonneg mx ex lx Hm) as H1.
  destruct (shr_fexp prec emax mx ex lx) as [mrs' e']. simpl in H1.
  pose proof (shr_fexp_nonneg _ e' loc_Exact
                (round_nearest_even_nonneg _ (loc_of_shr_record mrs') H1)) as H2.
  destruct (shr_fexp prec emax _ e' loc_Exact) as [mrs'' e'']. simpl in H2.
  revert H2. destruct (shr_m mrs'') as [| p | p]; simpl; intros H2;
    try exact eq_refl; try lia.
  destruct (Z.leb _ _); exact eq_refl.
Qed.

Lemma SFdiv_finite_signed (sx sy : bool) (mx my : positive) (ex ey : Z) :
  signed (xorb sx sy)
    (SF64div (S754_finite sx mx ex) (S754_finite sy my ey)).
Proof.
  unfold SF64div, SFdiv, SFdiv_core_binary.
  set (m' := match _ with Zpos _ => _ | Z0 => _ | Zneg _ => _ end).
  assert (Hm' : (0 <= m')%Z).
  { subst m'. destruct (_ - _ - _)%Z; try lia.
    apply Z.shiftl_nonneg. lia. }
  pose proof (Z_div_mod m' (Zpos my) eq_refl) as Hdiv.
  destruct (Z.div_eucl m' (Z.pos my)) as [q r].
  apply binary_round_aux_signed. nia.
Qed.

Lemma SFmul_finite_signed (sx sy : bool) (mx my : positive) (ex ey : Z) :
  signed (xorb sx sy)
    (SF64mul (S754_finite sx mx ex) (S754_finite sy my ey)).
Proof.
  unfold SF64mul, SFmul. apply binary_round_aux_signed. lia.
Qed.

(** [0 <= x] on the structural view. *)
Definition nonneg (v : spec_float) : Prop :=
  match v with
  | S754_zero _ | S754_finite false _ _ | S754_infinity false => True
  | _ => False
  end.

Lemma leb_zero_nonneg (x : float) :
  (0 <=? x) = true <-> nonneg (Prim2SF x).
Proof.
  rewrite leb_spec.
  replace (Prim2SF 0) with (S754_zero false) by reflexivity.
  destruct (Prim2SF x) as [s | [] | | [] m e]; simpl;
    intuition discriminate.
Qed.

Lemma signed_nonneg (v : spec_float) : signed false v -> nonneg v.
Proof. destruct v as [s | s | | s m e]; simpl; intros H; subst; tauto. Qed.

(** A positive finite number. *)
Definition positive_finite (y : float) : Prop :=
  exists m e, Prim2SF y = S754_finite false m e.

Lemma div_nonneg (x y : float) :
  (0 <=? x) = true -> positive_finite y -> (0 <=? x / y) = true.
Proof.
  rewrite !leb_zero_nonneg, div_spec. intros Hx (m & e & ->).
  destruct (Prim2SF x) as [s | [] | | [] mx ex]; simpl in Hx; try tauto;
    try exact I.
  apply signed_nonneg. apply (SFdiv_finite_signed false false).
Qed.

Lemma mul_nonneg (x y : float) :
  (0 <=? x) = true -> positive_finite y -> (0 <=? x * y) = true.
Proof.
  rewrite !leb_zero_nonneg, mul_spec. intros Hx (m & e & ->).
  destruct (Prim2SF x) as [s | [] | | [] mx ex]; simpl in Hx; try tauto;
    try exact I.
  apply signed_nonneg. apply (SFmul_finite_signed false false).
Qed.

Lemma digits2_pos_iter (p d : positive) :
  digits2_pos (Pos.iter xO p d) = (digits2_pos p + d)%positive.
Proof.
  induction d as [| d IH] using Pos.peano_ind.
  - simpl. now rewrite Pos.add_1_r.
  - rewrite Pos.iter_succ. simpl. rewrite IH. lia.
Qed.

Lemma digits2_pos_lower (p : positive) :
  (2 ^ (Zpos (digits2_pos p) - 1) <= Zpos p)%Z.
Proof.
  induction p as [p IH | p IH |]; simpl digits2_pos; [| | simpl; lia];
    rewrite Pos2Z.inj_succ;
    replace (Z.succ (Zpos (digits2_pos p)) - 1)%Z
      with (Z.succ (Zpos (digits2_pos p) - 1))%Z by lia;
    rewrite Z.pow_succ_r by lia; lia.
Qed.

Lemma digits2_pos_small (p : positive) :
  (Zpos p < 2 ^ 53)%Z -> (Zpos (digits2_pos p) <= 53)%Z.
Proof.
  intros Hp. destruct (Z_le_gt_dec (Zpos (digits2_pos p)) 53) as [H | H];
    [exact H | exfalso].
  pose proof (digits2_pos_lower p) as Hlow.
  assert (Hpow : (2 ^ 53 <= 2 ^ (Zpos (digits2_pos p) - 1))%Z)
    by (apply Z.pow_le_mono_r; lia).
  lia.
Qed.

(** An integer of at most 53 bits is represented exactly, with a mantissa
    of 53 bits. *)
Lemma binary_round_small (p : positive) :
  (Zpos (digits2_pos p) <= 53)%Z ->
  exists m e, binary_round prec emax false p 0 = S754_finite false m e.
Proof.
  intros Hd. unfold binary_round.
  assert (Hfexp : fexp prec emax (Zpos (digits2_pos p) + 0) =
                  (Zpos (digits2_pos p) - 53)%Z).
  { unfold fexp, emin, prec, emax. lia. }
  rewrite Hfexp.
  assert (Halign : exists mz,
            shl_align p 0 (Zpos (digits2_pos p) - 53) =
              (mz, (Zpos (digits2_pos p) - 53)%Z) /\
            Zpos (digits2_pos mz) = 53%Z).
  { unfold shl_align.
    destruct (Zpos (digits2_pos p) - 53 - 0)%Z as [| k | k] eqn:E; try lia.
    - exists p. split; [f_equal; lia | lia].
    - exists (Pos.iter xO p k). split; [reflexivity |].
      rewrite digits2_pos_iter. lia. }
  destruct Halign as (mz & -> & Hmz).
  set (ez := (Zpos (digits2_pos p) - 53)%Z) in *.
  assert (Hez : (-52 <= ez <= 0)%Z) by (subst ez; lia).
  assert (Hshr : forall l, shr_fexp prec emax (Zpos mz) ez l =
                           (shr_record_of_loc (Zpos mz) l, ez)).
  { intros l. unfold shr_fexp, shr. simpl Zdigits2. rewrite Hmz.
    replace (fexp prec emax (53 + ez) - ez)%Z with 0%Z
      by (unfold fexp, emin, prec, emax; lia).
    reflexivity. }
  unfold binary_round_aux. rewrite Hshr. simpl shr_m. simpl loc_of_shr_record.
  simpl round_nearest_even. rewrite Hshr. simpl shr_m.
  replace (ez <=? emax - prec)%Z with true
    by (symmetry; apply Z.leb_le; unfold emax, prec; lia).
  now exists mz, ez.
Qed.

(** A count below 2^53 becomes a positive finite float. *)
Lemma of_count_finite (z : Z) :
  (0 < z < 2 ^ 53)%Z -> positive_finite (of_uint63 (Uint63.of_Z z)).
Proof.
  intros [Hpos Hsmall]. unfold positive_finite.
  rewrite of_uint63_spec, Uint63.of_Z_spec.
  rewrite Z.mod_small
    by (split; [lia | apply (Z.lt_trans _ (2 ^ 53)); [exact Hsmall | reflexivity]]).
  destruct z as [| p | p]; try lia.
  simpl binary_normalize. apply binary_round_small.
  now apply digits2_pos_small.
Qed.

End FloatRounding.

Import FloatOrder.

Local Open Scope string_scope.
Local Open Scope float_scope.

(** ** Helper functions of [app.py] *)

(** [mgL_to_meq(mgL, mw, charge)]: [mgL / mw * charge]. *)
Definition mgL_to_meq (mgL mw charge : float) : float := mgL / mw * charge.

(** The three status labels [classify_salinisation] returns. *)
Definition SALINE : string := "🔴 Saline".
Definition SLIGHTLY_SALINE : string := "🟡 Slightly Saline".
Definition FRESH : string := "🟢 Fresh".

(** The points the first [if]/[elif] adds for the conductivity. *)
Definition ec_points (ec : float) : Z :=
  if gtb ec 1500 then 50 else if gtb ec 750 then 25 else 0.

(** The points the second [if]/[elif] adds for the chloride content. *)
Definition cl_points (cl : float) : Z :=
  if gtb cl 250 then 50 else if gtb cl 100 then 25 else 0.

(** [classify_salinisation(ec, cl)]: the pair (status label, score). *)
Definition classify_salinisation (ec cl : float) : string * Z :=
  let score := 0%Z in
  let score := (score + ec_points ec)%Z in
  let score := (score + cl_points cl)%Z in
  if (score >=? 75)%Z then (SALINE, score)
  else if (score >=? 40)%Z then (SLIGHTLY_SALINE, score)
  else (FRESH, score).

(** The rank of a status label: Fresh, Slightly Saline, Saline. *)
Definition status_rank (status : string) : nat :=
  if String.eqb status SALINE then 2
  else if String.eqb status SLIGHTLY_SALINE then 1
  else 0.

(** ** Data frames

    A pandas data frame is a mapping from column names to columns; a numeric
    column (a [Series] of dtype float64) is a list of binary64 cells.  All
    columns of one frame have the same length. *)

Definition Series := list float.
Definition DataFrame := list (string * Series).

(** [df.columns] *)
Definition columns (df : DataFrame) : list string := map fst df.

(** [c in df.columns] *)
Definition has_column (df : DataFrame) (c : string) : bool :=
  existsb (String.eqb c) (columns df).

(** [df[c]]; [None] stands for the [KeyError] pandas raises. *)
Fixpoint getcol (df : DataFrame) (c : string) : option Series :=
  match df with
  | [] => None
  | (name, col) :: rest => if String.eqb c name then Some col else getcol rest c
  end.

(** Arithmetic of a column with scalars, and of two columns, is
    elementwise. *)
Definition series_mgL_to_meq (s : Series) (mw charge : float) : Series :=
  map (fun x => mgL_to_meq x mw charge) s.

Fixpoint series_div (a b : Series) : Series :=
  match a, b with
  | x :: a', y :: b' => (x / y) :: series_div a' b'
  | _, _ => []
  end.

(** *** Reductions of pandas

    [Series.median()] and [Series.max()] skip NaN cells ([skipna=True] is
    the default) and return NaN on a column with no other cell; the median
    of an even number of cells is the mean of the two middle ones. *)

Definition dropna (s : Series) : Series :=
  filter (fun x => negb (is_nan x)) s.

Fixpoint insert_sorted (x : float) (s : Series) : Series :=
  match s with
  | [] => [x]
  | y :: s' => if x <=? y then x :: s else y :: insert_sorted x s'
  end.

Definition sort_values (s : Series) : Series :=
  fold_right insert_sorted [] s.

Definition median (s : Series) : float :=
  let v := sort_values (dropna s) in
  let n := List.length v in
  if Nat.eqb n 0 then nan
  else if Nat.odd n then nth (n / 2) v nan
  else (nth (n / 2 - 1) v nan + nth (n / 2) v nan) / 2.

Definition series_max (s : Series) : float :=
  match dropna s with
  | [] => nan
  | x :: v => fold_left (fun m y => if m <? y then y else m) v x
  end.

(** The order of two cells that are not NaN. *)
Definition le_cell (a b : float) : Prop := (a <=? b) = true.

(** [r] is the median of the cells [v]: NaN when there is none, else the
    middle cell of the cells put in order, or the mean of the two middle
    ones when their number is even. *)
Definition is_median_of (v : Series) (r : float) : Prop :=
  let n := List.length v in
  if Nat.eqb n 0 then r = nan
  else exists w : Series,
      Permutation w v /\ StronglySorted le_cell w /\
      r = if Nat.odd n then nth (n / 2) w nan
          else (nth (n / 2 - 1) w nan + nth (n / 2) w nan) / 2.

(** The ratios the specification lets into the medians, in its words:
    those of the samples whose denominator equivalence value is not zero. *)
Fixpoint spec_defined_ratios (num den : Series) : Series :=
  match num, den with
  | x :: num', y :: den' =>
      if is_zero y then spec_defined_ratios num' den'
      else (x / y) :: spec_defined_ratios num' den'
  | _, _ => []
  end.

(** A count as a float64 cell. *)
Definition float_of_nat (n : nat) : float :=
  of_uint63 (Uint63.of_Z (Z.of_nat n)).

(** [col.value_counts(normalize=True).get(label, 0)]: the share of the rows
    that carry [label]; a label that does not occur has no entry, so
    [get] returns its default [0]. *)
Definition count_label (label : string) (col : list string) : nat :=
  List.length (filter (String.eqb label) col).

Definition value_share (col : list string) (label : string) : float :=
  let c := count_label label col in
  if Nat.eqb c 0 then 0 else float_of_nat c / float_of_nat (List.length col).

(** ** Overall recommendation *)

(** The six [return] statements of [generate_overall_recommendation], in
    source order. *)
Inductive Branch : Set :=
  | FreshAquifer
  | EarlyStage
  | SeawaterIntrusion
  | EvaporationIonExchange
  | ChlorideDominated
  | InsufficientData.

(** The text each [return] produces (adjacent literals are concatenated). *)
Definition recommendation_text (b : Branch) : string :=
  match b with
  | FreshAquifer =>
      "Overall groundwater quality indicates a fresh aquifer with no significant "
      ++ "salinisation impact. Current groundwater use is sustainable; however, "
      ++ "periodic monitoring is recommended to detect future changes."
  | EarlyStage =>
      "The aquifer shows early-stage salinisation, with a mix of fresh and slightly "
      ++ "saline samples. Preventive management measures such as regulated pumping, "
      ++ "controlled abstraction, and regular hydrochemical monitoring are advised."
  | SeawaterIntrusion =>
      "A significant proportion of samples indicate salinisation with Na/Cl ratios "
      ++ "close to unity, suggesting seawater intrusion. Immediate intervention is "
      ++ "required, including reduction of groundwater abstraction near the coast, "
      ++ "artificial recharge, and implementation of hydraulic control measures."
  | EvaporationIonExchange =>
      "Widespread salinisation is observed, likely influenced by evaporation and "
      ++ "ion exchange processes. Groundwater is unsuitable for drinking purposes, "
      ++ "and alternative water sources or blending strategies should be considered."
  | ChlorideDominated =>
      "The aquifer is affected by chloride-dominated salinity. Restriction of "
      ++ "domestic usage and implementation of long-term salinity mitigation "
      ++ "strategies are strongly recommended."
  | InsufficientData =>
      "Insufficient data to derive an overall recommendation."
  end.

(** The place of a branch in the priority order of the decision logic; the
    three branches under [saline_frac >= 0.4] share the third place. *)
Definition severity (b : Branch) : nat :=
  match b with
  | FreshAquifer => 1
  | EarlyStage => 2
  | SeawaterIntrusion | EvaporationIonExchange | ChlorideDominated => 3
  | InsufficientData => 4
  end.

(** The chain of [if] statements over the three statistics it reads. *)
Definition select_branch (saline_frac slight_frac median_na_cl : float) : Branch :=
  if (saline_frac <? 0.2) && (slight_frac <? 0.3) then FreshAquifer
  else if saline_frac <? 0.4 then EarlyStage
  else if geb saline_frac 0.4 then
    if (0.85 <=? median_na_cl) && (median_na_cl <=? 1.15) then SeawaterIntrusion
    else if gtb median_na_cl 1.15 then EvaporationIonExchange
    else ChlorideDominated
  else InsufficientData.

(** The frame after the pipeline has added its columns: the columns the
    later stages read, by name. *)
Record Enriched : Type := mkEnriched {
  Na : Series; Ca : Series; Mg : Series; Cl : Series; HCO3 : Series;
  EC : Series;
  Na_meq : Series; Ca_meq : Series; Mg_meq : Series; Cl_meq : Series;
  HCO3_meq : Series;
  Na_Cl : Series; Cl_HCO3 : Series;
  Salinity_Status : list string;
  Confidence : list Z
}.

(** The local variables [generate_overall_recommendation] computes first. *)
Record Statistics : Type := mkStatistics {
  saline_frac : float;
  slight_frac : float;
  median_na_cl : float;
  median_cl_hco3 : float;
  max_ec : float
}.

Definition population_statistics (df : Enriched) : Statistics :=
  {| saline_frac := value_share (Salinity_Status df) SALINE;
     slight_frac := value_share (Salinity_Status df) SLIGHTLY_SALINE;
     median_na_cl := median (Na_Cl df);
     median_cl_hco3 := median (Cl_HCO3 df);
     max_ec := series_max (EC df) |}.

Definition overall_branch (df : Enriched) : Branch :=
  let st := population_statistics df in
  select_branch (saline_frac st) (slight_frac st) (median_na_cl st).

(** [generate_overall_recommendation(df)] *)
Definition generate_overall_recommendation (df : Enriched) : string :=
  recommendation_text (overall_branch df).

(** ** The pipeline run on an uploaded table *)

Definition required_cols : list string :=
  ["Na"; "Ca"; "Mg"; "Cl"; "HCO3"; "EC"].

(** [[c for c in required_cols if c not in df.columns]] *)
Definition missing_columns (df : DataFrame) : list string :=
  filter (fun c => negb (has_column df c)) required_cols.

(** [df.apply(lambda r: classify_salinisation(r["EC"], r["Cl"]), axis=1)] *)
Fixpoint classify_rows (ec cl : Series) : list (string * Z) :=
  match ec, cl with
  | e :: ec', c :: cl' => classify_salinisation e c :: classify_rows ec' cl'
  | _, _ => []
  end.

(** The conversion, ratio and classification blocks, on the six required
    columns. *)
Definition enrich (na ca mg cl hco3 ec : Series) : Enriched :=
  let na_meq := series_mgL_to_meq na 23 1 in
  let ca_meq := series_mgL_to_meq ca 40 2 in
  let mg_meq := series_mgL_to_meq mg 24.3 2 in
  let cl_meq := series_mgL_to_meq cl 35.45 1 in
  let hco3_meq := series_mgL_to_meq hco3 61 1 in
  let na_cl := series_div na_meq cl_meq in
  let cl_hco3 := series_div cl_meq hco3_meq in
  let results := classify_rows ec cl in
  {| Na := na; Ca := ca; Mg := mg; Cl := cl; HCO3 := hco3; EC := ec;
     Na_meq := na_meq; Ca_meq := ca_meq; Mg_meq := mg_meq;
     Cl_meq := cl_meq; HCO3_meq := hco3_meq;
     Na_Cl := na_cl; Cl_HCO3 := cl_hco3;
     Salinity_Status := map fst results;
     Confidence := map snd results |}.

(** One row of the uploaded table, and the enriched table of a list of
    rows. *)
Record Sample : Type := mkSample {
  sample_Na : float; sample_Ca : float; sample_Mg : float;
  sample_Cl : float; sample_HCO3 : float; sample_EC : float
}.

Definition table_of (rows : list Sample) : Enriched :=
  enrich (map sample_Na rows) (map sample_Ca rows) (map sample_Mg rows)
         (map sample_Cl rows) (map sample_HCO3 rows) (map sample_EC rows).

(** How a run on an uploaded table ends. *)
Inductive Outcome : Type :=
  | Stopped (missing : list string)
      (** [st.error] names the missing columns, [st.stop()] ends the run *)
  | KeyError
      (** a column lookup failed *)
  | Completed (df : Enriched) (overall_rec : string).

(** The body of [if uploaded_file:] from the column check on. *)
Definition run (df : DataFrame) : Outcome :=
  match missing_columns df with
  | (_ :: _) as missing => Stopped missing
  | [] =>
      match getcol df "Na", getcol df "Ca", getcol df "Mg",
            getcol df "Cl", getcol df "HCO3", getcol df "EC" with
      | Some na, Some ca, Some mg, Some cl, Some hco3, Some ec =>
          let out := enrich na ca mg cl hco3 ec in
          Completed out (generate_overall_recommendation out)
      | _, _, _, _, _, _ => KeyError
      end
  end.

(** ** Sample tables *)

(** An uploaded table with exactly the six required columns. *)
Definition frame (na ca mg cl hco3 ec : Series) : DataFrame :=
  [("Na", na); ("Ca", ca); ("Mg", mg); ("Cl", cl); ("HCO3", hco3); ("EC", ec)].

Module Examples.

(** One sample with Na = 23 mg/L and Cl = 35.45 mg/L. *)
Definition unit_ratio : Enriched :=
  enrich [23] [40] [24.3] [35.45] [61] [500].

(** Six samples with Na/Cl = 1: two Slightly Saline (EC 1600), four Fresh. *)
Definition six_samples : Enriched :=
  enrich (repeat 23 6) (repeat 40 6) (repeat 24.3 6) (repeat 35.45 6)
         (repeat 61 6) [1600; 1600; 500; 500; 500; 500].

(** The same six samples and one Saline sample (EC 1600, Cl 354.5) more. *)
Definition seven_samples : Enriched :=
  enrich (repeat 23 6 ++ [230])%list (repeat 40 7) (repeat 24.3 7)
         (repeat 35.45 6 ++ [354.5])%list (repeat 61 7)
         [1600; 1600; 500; 500; 500; 500; 1600].

(** Four samples with Na/Cl = 1: one Slightly Saline, three Fresh. *)
Definition four_samples : Enriched :=
  enrich (repeat 23 4) (repeat 40 4) (repeat 24.3 4) (repeat 35.45 4)
         (repeat 61 4) [1600; 500; 500; 500].

(** The four samples with the second one Saline instead (Cl 354.5). *)
Definition four_samples_one_saline : Enriched :=
  enrich [23; 230; 23; 23] (repeat 40 4) (repeat 24.3 4)
         [35.45; 354.5; 35.45; 35.45] (repeat 61 4) [1600; 1600; 500; 500].

(** Ten samples: five with EC = 2000 and Cl = 354.5, five with EC = 500 and
    Cl = 35.45; the sodium values make the median Na/Cl equal to 1. *)
Definition ten_samples : Enriched :=
  enrich [100; 100; 400; 400; 400; 23; 23; 23; 23; 23] (repeat 40 10)
         (repeat 24.3 10) (repeat 354.5 5 ++ repeat 35.45 5)%list
         (repeat 61 10) (repeat 2000 5 ++ repeat 500 5)%list.

(** Three samples, the first without chloride. *)
Definition zero_chloride : Enriched :=
  enrich [23; 23; 46] (repeat 40 3) (repeat 24.3 3) [0; 35.45; 35.45]
         (repeat 61 3) (repeat 500 3).

(** A table that lacks the HCO3 column, and only that one. *)
Definition no_hco3 : DataFrame :=
  [("Na", [23]); ("Ca", [40]); ("Mg", [24.3]); ("Cl", [35.45]);
   ("EC", [500]); ("pH", [7])].

End Examples.

(** ** The classifier *)

Section Classifier.

Variables ec cl : float.

Lemma ec_points_top : gtb ec 1500 = true -> ec_points ec = 50%Z.
Proof. unfold ec_points. now intros ->. Qed.

Lemma ec_points_middle :
  gtb ec 750 = true -> (ec <=? 1500) = true -> ec_points ec = 25%Z.
Proof.
  unfold ec_points. intros Hmid Hle.
  unfold gtb in *. now rewrite (leb_not_gtb _ _ Hle), Hmid.
Qed.

Lemma ec_points_low : (ec <=? 750) = true -> ec_points ec = 0%Z.
Proof.
  unfold ec_points, gtb. intros Hle.
  assert (H1500 : (ec <=? 1500) = true)
    by (apply (leb_trans _ _ _ Hle); reflexivity).
  now rewrite (leb_not_gtb _ _ H1500), (leb_not_gtb _ _ Hle).
Qed.

Lemma cl_points_top : gtb cl 250 = true -> cl_points cl = 50%Z.
Proof. unfold cl_points. now intros ->. Qed.

Lemma cl_points_middle :
  gtb cl 100 = true -> (cl <=? 250) = true -> cl_points cl = 25%Z.
Proof.
  unfold cl_points. intros Hmid Hle.
  unfold gtb in *. now rewrite (leb_not_gtb _ _ Hle), Hmid.
Qed.

Lemma cl_points_low : (cl <=? 100) = true -> cl_points cl = 0%Z.
Proof.
  unfold cl_points, gtb. intros Hle.
  assert (H250 : (cl <=? 250) = true)
    by (apply (leb_trans _ _ _ Hle); reflexivity).
  now rewrite (leb_not_gtb _ _ H250), (leb_not_gtb _ _ Hle).
Qed.

End Classifier.

(** On a number (anything but NaN) one of the three tiers applies. *)
Lemma tiers_exhaustive (x lo hi : float) :
  is_num x = true -> is_num lo = true -> is_num hi = true ->
  gtb x hi = true \/
  (gtb x lo = true /\ (x <=? hi) = true) \/
  (x <=? lo) = true.
Proof.
  intros Hx Hlo Hhi. unfold gtb.
  destruct (hi <? x) eqn:Ehi; [now left | right].
  apply (not_ltb_geb _ _ Hhi Hx) in Ehi.
  destruct (lo <? x) eqn:Elo; [now left | right].
  now apply (not_ltb_geb _ _ Hlo Hx).
Qed.

Lemma points_values (x : float) :
  In (ec_points x) [0; 25; 50]%Z /\ In (cl_points x) [0; 25; 50]%Z.
Proof.
  unfold ec_points, cl_points.
  destruct (gtb x 1500), (gtb x 750), (gtb x 250), (gtb x 100);
    simpl; intuition.
Qed.

(** C1, as the specification words it, fails: with EC = 1500 and Cl = 0 the
    score 25 is below 40, so the status is Fresh, not Slightly Saline. *)
Lemma classify_boundary_1500_not_slightly_saline :
  ~ (classify_salinisation 1500 0 = (SLIGHTLY_SALINE, 25%Z) /\
     classify_salinisation 1501 0 = (SLIGHTLY_SALINE, 50%Z) /\
     classify_salinisation 1501 251 = (SALINE, 100%Z)).
Proof.
  intros [H _]. vm_compute in H. discriminate H.
Qed.

(** C1 (amended): EC = 1500, Cl = 0 gives score 25 and status Fresh (EC
    exactly 1500 is in the middle tier); EC = 1501, Cl = 0 gives score 50 and
    status Slightly Saline; EC = 1501, Cl = 251 gives score 100 and status
    Saline. *)
Theorem classify_boundaries :
  classify_salinisation 1500 0 = (FRESH, 25%Z) /\
  classify_salinisation 1501 0 = (SLIGHTLY_SALINE, 50%Z) /\
  classify_salinisation 1501 251 = (SALINE, 100%Z) /\
  FRESH <> SLIGHTLY_SALINE /\ FRESH <> SALINE /\ SLIGHTLY_SALINE <> SALINE.
Proof.
  repeat split; try (vm_compute; reflexivity); discriminate.
Qed.

(** C5: for EC >= 0 and Cl >= 0 the score is one of 0, 25, 50, 75, 100; it
    is the sum of the EC points (50 above 1500, 25 above 750 and up to 1500,
    0 up to 750) and the Cl points (50 above 250, 25 above 100 and up to
    250, 0 up to 100), one tier of each always applying; the status is
    Saline from 75 on, Slightly Saline from 40 to below 75, Fresh below
    40. *)
Theorem classify_score_and_status (ec cl : float)
  (Hec : geb ec 0 = true) (Hcl : geb cl 0 = true) :
  let (status, score) := classify_salinisation ec cl in
  In score [0; 25; 50; 75; 100]%Z /\
  score = (ec_points ec + cl_points cl)%Z /\
  (gtb ec 1500 = true -> ec_points ec = 50%Z) /\
  (gtb ec 750 = true -> (ec <=? 1500) = true -> ec_points ec = 25%Z) /\
  ((ec <=? 750) = true -> ec_points ec = 0%Z) /\
  (gtb ec 1500 = true \/
   (gtb ec 750 = true /\ (ec <=? 1500) = true) \/ (ec <=? 750) = true) /\
  (gtb cl 250 = true -> cl_points cl = 50%Z) /\
  (gtb cl 100 = true -> (cl <=? 250) = true -> cl_points cl = 25%Z) /\
  ((cl <=? 100) = true -> cl_points cl = 0%Z) /\
  (gtb cl 250 = true \/
   (gtb cl 100 = true /\ (cl <=? 250) = true) \/ (cl <=? 100) = true) /\
  ((75 <= score)%Z -> status = SALINE) /\
  ((40 <= score < 75)%Z -> status = SLIGHTLY_SALINE) /\
  ((score < 40)%Z -> status = FRESH).
Proof.
  assert (Nec : is_num ec = true) by (apply (leb_is_num 0 ec), Hec).
  assert (Ncl : is_num cl = true) by (apply (leb_is_num 0 cl), Hcl).
  pose proof (tiers_exhaustive ec 750 1500 Nec eq_refl eq_refl) as Tec.
  pose proof (tiers_exhaustive cl 100 250 Ncl eq_refl eq_refl) as Tcl.
  destruct (classify_salinisation ec cl) as [status score] eqn:E.
  assert (Hmap : In score [0; 25; 50; 75; 100]%Z /\
                 score = (ec_points ec + cl_points cl)%Z /\
                 ((75 <= score)%Z -> status = SALINE) /\
                 ((40 <= score < 75)%Z -> status = SLIGHTLY_SALINE) /\
                 ((score < 40)%Z -> status = FRESH)).
  { unfold classify_salinisation in E.
    destruct (proj1 (points_values ec)) as [He | [He | [He | []]]];
      destruct (proj2 (points_values cl)) as [Hc | [Hc | [Hc | []]]];
      rewrite <- He, <- Hc in E |- *; simpl in E;
      injection E as <- <-; simpl;
      repeat split; try lia; intros; try reflexivity; exfalso; lia. }
  destruct Hmap as (Hin & Hsum & Hsal & Hsli & Hfre).
  repeat split; try assumption.
  - apply ec_points_top.
  - apply ec_points_middle.
  - apply ec_points_low.
  - apply cl_points_top.
  - apply cl_points_middle.
  - apply cl_points_low.
Qed.

(** The claim at EC = 1200, Cl = 300: score 75, status Saline. *)
Lemma classify_score_and_status_witness :
  let (status, score) := classify_salinisation 1200 300 in
  In score [0; 25; 50; 75; 100]%Z /\
  score = (ec_points 1200 + cl_points 300)%Z /\
  (gtb 1200 1500 = true -> ec_points 1200 = 50%Z) /\
  (gtb 1200 750 = true -> (1200 <=? 1500) = true -> ec_points 1200 = 25%Z) /\
  ((1200 <=? 750) = true -> ec_points 1200 = 0%Z) /\
  (gtb 1200 1500 = true \/
   (gtb 1200 750 = true /\ (1200 <=? 1500) = true) \/ (1200 <=? 750) = true) /\
  (gtb 300 250 = true -> cl_points 300 = 50%Z) /\
  (gtb 300 100 = true -> (300 <=? 250) = true -> cl_points 300 = 25%Z) /\
  ((300 <=? 100) = true -> cl_points 300 = 0%Z) /\
  (gtb 300 250 = true \/
   (gtb 300 100 = true /\ (300 <=? 250) = true) \/ (300 <=? 100) = true) /\
  ((75 <= score)%Z -> status = SALINE) /\
  ((40 <= score < 75)%Z -> status = SLIGHTLY_SALINE) /\
  ((score < 40)%Z -> status = FRESH).
Proof.
  apply (classify_score_and_status 1200 300); reflexivity.
Defined.

(** A negative reading lies below every threshold. *)
Lemma negative_below (x bound : float) :
  (x <? 0) = true -> (0 <=? bound) = true -> (x <=? bound) = true.
Proof.
  intros Hx Hb. apply ltb_leb. now apply (ltb_leb_trans x 0 bound).
Qed.

(** C10: the classifier is a total function of any two binary64 readings;
    whenever EC <= 750 and Cl <= 100, negative readings included, it returns
    status Fresh with score 0. *)
Theorem classify_low_is_fresh (ec cl : float)
  (Hec : (ec <=? 750) = true) (Hcl : (cl <=? 100) = true) :
  classify_salinisation ec cl = (FRESH, 0%Z).
Proof.
  unfold classify_salinisation.
  now rewrite (ec_points_low ec Hec), (cl_points_low cl Hcl).
Qed.

(** The claim at the negative readings EC = -20 and Cl = -3.5. *)
Lemma classify_low_is_fresh_witness :
  classify_salinisation (-20) (-3.5) = (FRESH, 0%Z).
Proof.
  apply (classify_low_is_fresh (-20) (-3.5));
    apply negative_below; reflexivity.
Defined.

(** ** The unit converter and the ratios *)

(** C6: the converter returns [c / m * z]; the pipeline applies it with the
    constants Na (23, 1), Ca (40, 2), Mg (24.3, 2), Cl (35.45, 1) and HCO3
    (61, 1); for Na = 23 and Cl = 35.45 both equivalents are 1 and the Na/Cl
    ratio is exactly 1.0. *)
Theorem converter_and_constants :
  (forall c m z : float, mgL_to_meq c m z = c / m * z) /\
  (forall na ca mg cl hco3 ec : Series,
     let out := enrich na ca mg cl hco3 ec in
     Na_meq out = map (fun x => mgL_to_meq x 23 1) na /\
     Ca_meq out = map (fun x => mgL_to_meq x 40 2) ca /\
     Mg_meq out = map (fun x => mgL_to_meq x 24.3 2) mg /\
     Cl_meq out = map (fun x => mgL_to_meq x 35.45 1) cl /\
     HCO3_meq out = map (fun x => mgL_to_meq x 61 1) hco3 /\
     Na_Cl out = series_div (Na_meq out) (Cl_meq out) /\
     Cl_HCO3 out = series_div (Cl_meq out) (HCO3_meq out)) /\
  mgL_to_meq 23 23 1 = 1 /\
  mgL_to_meq 35.45 35.45 1 = 1 /\
  Na_meq Examples.unit_ratio = [1] /\
  Cl_meq Examples.unit_ratio = [1] /\
  Na_Cl Examples.unit_ratio = [1].
Proof.
  split; [reflexivity |].
  split; [intros; repeat split |].
  repeat split; vm_compute; reflexivity.
Qed.

(** ** The decision logic *)

Section Decision.

Variables sf sl m : float.

Lemma branch_fresh :
  (sf <? 0.2) = true -> (sl <? 0.3) = true ->
  select_branch sf sl m = FreshAquifer.
Proof. unfold select_branch. now intros -> ->. Qed.

Lemma branch_early :
  (sf <? 0.2) && (sl <? 0.3) = false -> (sf <? 0.4) = true ->
  select_branch sf sl m = EarlyStage.
Proof. unfold select_branch. now intros -> ->. Qed.

(** From [saline_frac >= 0.4] on, the first two conditions fail. *)
Lemma branch_saline :
  geb sf 0.4 = true ->
  select_branch sf sl m =
    if (0.85 <=? m) && (m <=? 1.15) then SeawaterIntrusion
    else if gtb m 1.15 then EvaporationIonExchange
    else ChlorideDominated.
Proof.
  unfold select_branch, geb. intros Hge.
  assert (H04 : (sf <? 0.4) = false) by now apply leb_not_gtb.
  assert (H02 : (sf <? 0.2) = false).
  { apply leb_not_gtb. apply (leb_trans 0.2 0.4 sf); [reflexivity | exact Hge]. }
  now rewrite H02, H04, Hge.
Qed.

(** A saline share that is a number never reaches the last [return]. *)
Lemma branch_of_number :
  is_num sf = true -> select_branch sf sl m <> InsufficientData.
Proof.
  intros Hnum. unfold select_branch.
  destruct ((sf <? 0.2) && (sl <? 0.3)); [discriminate |].
  destruct (sf <? 0.4) eqn:H04; [discriminate |].
  apply (not_ltb_geb sf 0.4 Hnum eq_refl) in H04.
  unfold geb. rewrite H04.
  destruct ((0.85 <=? m) && (m <=? 1.15)); [discriminate |].
  destruct (gtb m 1.15); discriminate.
Qed.

End Decision.

Lemma recommendation_text_injective (a b : Branch) :
  recommendation_text a = recommendation_text b -> a = b.
Proof.
  destruct a, b; intros H; try reflexivity; vm_compute in H; discriminate H.
Qed.

(** Raising the saline share alone never selects an earlier branch. *)
Lemma select_branch_monotone (sf1 sf2 sl m : float) :
  (sf1 <=? sf2) = true ->
  severity (select_branch sf1 sl m) <= severity (select_branch sf2 sl m).
Proof.
  intros Hle.
  destruct (leb_is_num _ _ Hle) as [N1 N2].
  destruct (sf2 <? 0.4) eqn:H2.
  - (* both shares are below 0.4 *)
    assert (H1 : (sf1 <? 0.4) = true) by now apply (leb_ltb_trans sf1 sf2).
    unfold select_branch. rewrite H1, H2.
    destruct (sf2 <? 0.2) eqn:L2.
    + rewrite (leb_ltb_trans sf1 sf2 0.2 Hle L2).
      destruct (sl <? 0.3); simpl; lia.
    + destruct ((sf1 <? 0.2) && (sl <? 0.3)); simpl; lia.
  - apply (not_ltb_geb sf2 0.4 N2 eq_refl) in H2.
    rewrite (branch_saline sf2 sl m H2).
    pose proof (branch_of_number sf1 sl m N1) as Hne.
    destruct (select_branch sf1 sl m); try (now elim Hne);
      destruct ((0.85 <=? m) && (m <=? 1.15)); try (simpl; lia);
      destruct (gtb m 1.15); simpl; lia.
Qed.

(** C7: the branches are tried in priority order, the first match wins:
    [saline_frac < 0.2 and slight_frac < 0.3] gives the fresh-aquifer text;
    otherwise [saline_frac < 0.4] gives the early-stage text; from
    [saline_frac >= 0.4] on, [median_na_cl] decides: within [0.85, 1.15]
    seawater intrusion, above 1.15 evaporation and ion exchange, else
    chloride-dominated.  Ten samples, five Saline and five Fresh, with median
    Na/Cl 1.0 give the seawater-intrusion text. *)
Theorem decision_priority_order :
  (forall sf sl m : float,
     let b := select_branch sf sl m in
     ((sf <? 0.2) = true /\ (sl <? 0.3) = true -> b = FreshAquifer) /\
     (~ ((sf <? 0.2) = true /\ (sl <? 0.3) = true) ->
      (sf <? 0.4) = true -> b = EarlyStage) /\
     (geb sf 0.4 = true ->
      ((0.85 <=? m) = true /\ (m <=? 1.15) = true -> b = SeawaterIntrusion) /\
      (gtb m 1.15 = true -> b = EvaporationIonExchange) /\
      (~ ((0.85 <=? m) = true /\ (m <=? 1.15) = true) ->
       gtb m 1.15 <> true -> b = ChlorideDominated))) /\
  (forall df : Enriched,
     generate_overall_recommendation df =
     recommendation_text
       (select_branch (value_share (Salinity_Status df) SALINE)
                      (value_share (Salinity_Status df) SLIGHTLY_SALINE)
                      (median (Na_Cl df)))) /\
  (let df := Examples.ten_samples in
   List.length (Salinity_Status df) = 10%nat /\
   count_label SALINE (Salinity_Status df) = 5%nat /\
   count_label FRESH (Salinity_Status df) = 5%nat /\
   median (Na_Cl df) = 1 /\
   generate_overall_recommendation df = recommendation_text SeawaterIntrusion).
Proof.
  split; [| split; [reflexivity | repeat split; vm_compute; reflexivity]].
  intros sf sl m b. subst b. split; [| split].
  - intros [H1 H2]. now apply branch_fresh.
  - intros Hn H04. apply branch_early; [| exact H04].
    destruct (sf <? 0.2), (sl <? 0.3); try reflexivity.
    elim Hn. now split.
  - intros Hge. rewrite (branch_saline sf sl m Hge). split; [| split].
    + now intros [-> ->].
    + intros Hgt. unfold gtb in Hgt.
      rewrite (ltb_not_geb _ _ Hgt), andb_false_r.
      unfold gtb. now rewrite Hgt.
    + intros Hn Hgt.
      destruct (0.85 <=? m), (m <=? 1.15), (gtb m 1.15); simpl;
        try reflexivity; try (elim Hgt; reflexivity); elim Hn; now split.
Qed.

(** C9: when [saline_frac] and [slight_frac] are fractions in [0, 1], one of
    the branches before the fallback matches: the insufficient-data text is
    never returned. *)
Theorem fallback_unreachable (sf sl m : float)
  (Hsf : (0 <=? sf) = true /\ (sf <=? 1) = true)
  (Hsl : (0 <=? sl) = true /\ (sl <=? 1) = true) :
  select_branch sf sl m <> InsufficientData /\
  recommendation_text (select_branch sf sl m) <>
    recommendation_text InsufficientData.
Proof.
  assert (Hb : select_branch sf sl m <> InsufficientData).
  { apply branch_of_number. apply (leb_is_num 0 sf), Hsf. }
  split; [exact Hb |].
  intros Htext. apply Hb. now apply recommendation_text_injective.
Qed.

(** The claim at a half-saline population with median Na/Cl = 0.5. *)
Lemma fallback_unreachable_witness :
  select_branch 0.5 0.25 0.5 <> InsufficientData /\
  recommendation_text (select_branch 0.5 0.25 0.5) <>
    recommendation_text InsufficientData.
Proof.
  apply (fallback_unreachable 0.5 0.25 0.5); split; reflexivity.
Defined.

(** C3, as the specification words it, fails: six samples (two Slightly
    Saline, four Fresh) select the early-stage branch; one more Saline sample
    raises the saline share from 0 to 1/7 with the median Na/Cl still 1, and
    lowers the Slightly Saline share below 0.3, so the fresh-aquifer branch
    is selected. *)
Lemma adding_saline_sample_lowers_severity :
  ~ (forall d1 d2 : Enriched,
       let s1 := population_statistics d1 in
       let s2 := population_statistics d2 in
       (saline_frac s1 <? saline_frac s2) = true ->
       median_na_cl s1 = median_na_cl s2 ->
       severity (overall_branch d1) <= severity (overall_branch d2)).
Proof.
  intros H.
  specialize (H Examples.six_samples Examples.seven_samples).
  vm_compute in H.
  specialize (H eq_refl eq_refl).
  apply (Nat.nle_succ_diag_l 1). exact H.
Qed.

(** C3 (amended): with the Slightly Saline share and the median Na/Cl both
    held fixed, a larger Saline share never selects a less severe branch. *)
Theorem more_saline_never_less_severe (d1 d2 : Enriched)
  (Hsaline : (saline_frac (population_statistics d1) <=?
              saline_frac (population_statistics d2)) = true)
  (Hslight : slight_frac (population_statistics d1) =
             slight_frac (population_statistics d2))
  (Hmedian : median_na_cl (population_statistics d1) =
             median_na_cl (population_statistics d2)) :
  severity (overall_branch d1) <= severity (overall_branch d2).
Proof.
  unfold overall_branch. rewrite Hslight, Hmedian.
  now apply select_branch_monotone.
Qed.

(** The claim on four samples, before and after one Fresh sample is replaced
    by a Saline one: fresh-aquifer, then early-stage. *)
Lemma more_saline_never_less_severe_witness :
  severity (overall_branch Examples.four_samples) <=
  severity (overall_branch Examples.four_samples_one_saline) /\
  overall_branch Examples.four_samples = FreshAquifer /\
  overall_branch Examples.four_samples_one_saline = EarlyStage.
Proof.
  split; [| split; vm_compute; reflexivity].
  apply (more_saline_never_less_severe
           Examples.four_samples Examples.four_samples_one_saline);
    vm_compute; reflexivity.
Defined.

(** ** The column check *)

Lemma has_column_In (df : DataFrame) (c : string) :
  has_column df c = true <-> In c (columns df).
Proof.
  unfold has_column. rewrite existsb_exists. split.
  - intros (x & Hin & Heq). apply String.eqb_eq in Heq. now subst.
  - intros Hin. exists c. split; [exact Hin | apply String.eqb_refl].
Qed.

Lemma missing_columns_spec (df : DataFrame) (c : string) :
  In c (missing_columns df) <-> In c required_cols /\ ~ In c (columns df).
Proof.
  unfold missing_columns. rewrite filter_In, negb_true_iff.
  rewrite <- has_column_In. destruct (has_column df c); intuition congruence.
Qed.

Lemma getcol_has_column (df : DataFrame) (c : string) :
  has_column df c = true -> exists col, getcol df c = Some col.
Proof.
  unfold has_column, columns.
  induction df as [| [name col] rest IH]; simpl; [discriminate |].
  destruct (String.eqb c name); [now exists col | exact IH].
Qed.

(** When no required column is missing, every lookup succeeds and the run
    completes. *)
Lemma run_completes (df : DataFrame) :
  missing_columns df = [] ->
  exists out, run df = Completed out (generate_overall_recommendation out).
Proof.
  intros Hnone. unfold run. rewrite Hnone.
  assert (Hall : forall c, In c required_cols -> has_column df c = true).
  { intros c Hc. destruct (has_column df c) eqn:E; [reflexivity |].
    assert (Hin : In c (missing_columns df)).
    { apply missing_columns_spec. split; [exact Hc |].
      rewrite <- has_column_In. congruence. }
    rewrite Hnone in Hin. destruct Hin. }
  destruct (getcol_has_column df "Na") as [na ->]; [apply Hall; simpl; tauto |].
  destruct (getcol_has_column df "Ca") as [ca ->]; [apply Hall; simpl; tauto |].
  destruct (getcol_has_column df "Mg") as [mg ->]; [apply Hall; simpl; tauto |].
  destruct (getcol_has_column df "Cl") as [cl ->]; [apply Hall; simpl; tauto |].
  destruct (getcol_has_column df "HCO3") as [hco3 ->];
    [apply Hall; simpl; tauto |].
  destruct (getcol_has_column df "EC") as [ec ->]; [apply Hall; simpl; tauto |].
  eexists. reflexivity.
Qed.

Lemma run_frame (na ca mg cl hco3 ec : Series) :
  run (frame na ca mg cl hco3 ec) =
  let out := enrich na ca mg cl hco3 ec in
  Completed out (generate_overall_recommendation out).
Proof. reflexivity. Qed.

(** C8: a table that lacks a required column stops the run with exactly the
    missing required columns, in the order of [required_cols], before any
    conversion, ratio, classification or aggregation; a table that lacks only
    HCO3 is rejected with exactly ["HCO3"]. *)
Theorem missing_columns_stop_the_run (df : DataFrame)
  (Hmissing : exists c, In c required_cols /\ ~ In c (columns df)) :
  run df = Stopped (missing_columns df) /\
  (forall c, In c (missing_columns df) <->
             In c required_cols /\ ~ In c (columns df)) /\
  (has_column df "Na" = true -> has_column df "Ca" = true ->
   has_column df "Mg" = true -> has_column df "Cl" = true ->
   has_column df "HCO3" = false -> has_column df "EC" = true ->
   run df = Stopped ["HCO3"]).
Proof.
  assert (Hrun : run df = Stopped (missing_columns df)).
  { destruct Hmissing as (c & Hreq & Hnot).
    assert (Hin : In c (missing_columns df))
      by (apply missing_columns_spec; now split).
    unfold run. destruct (missing_columns df); [destruct Hin | reflexivity]. }
  split; [exact Hrun |]. split; [apply missing_columns_spec |].
  intros Hna Hca Hmg Hcl Hhco3 Hec. rewrite Hrun.
  unfold missing_columns, required_cols. simpl.
  now rewrite Hna, Hca, Hmg, Hcl, Hhco3, Hec.
Qed.

(** The claim on a table with columns Na, Ca, Mg, Cl, EC and pH. *)
Lemma missing_columns_stop_the_run_witness :
  run Examples.no_hco3 = Stopped ["HCO3"].
Proof.
  assert (Hmissing : exists c, In c required_cols /\
                               ~ In c (columns Examples.no_hco3)).
  { exists "HCO3". split; [simpl; tauto |].
    rewrite <- has_column_In. vm_compute. discriminate. }
  apply (missing_columns_stop_the_run Examples.no_hco3 Hmissing);
    reflexivity.
Defined.

(** ** Ratios with a zero denominator *)

Lemma is_nan_Prim2SF (x : float) :
  is_nan x = match Prim2SF x with S754_nan => true | _ => false end.
Proof.
  unfold is_nan. rewrite eqb_spec. unfold SFeqb. rewrite SFcompare_key.
  destruct (Prim2SF x) as [s | s | | s mx ex]; try destruct s; simpl;
    rewrite ?Z.compare_refl, ?Pos.compare_refl; reflexivity.
Qed.

Lemma is_zero_Prim2SF (x : float) :
  is_zero x = match Prim2SF x with S754_zero _ => true | _ => false end.
Proof.
  unfold is_zero. rewrite eqb_spec.
  replace (Prim2SF zero) with (S754_zero false) by reflexivity.
  destruct (Prim2SF x) as [s | s | | s mx ex]; try destruct s; reflexivity.
Qed.

Lemma is_infinity_Prim2SF (x : float) :
  is_infinity x = match Prim2SF x with S754_infinity _ => true | _ => false end.
Proof.
  unfold is_infinity. rewrite eqb_spec, abs_spec.
  replace (Prim2SF infinity) with (S754_infinity false) by reflexivity.
  destruct (Prim2SF x) as [s | s | | s mx ex]; reflexivity.
Qed.

(** IEEE-754 division by a zero: NaN for a zero or NaN numerator, an
    infinity for any other. *)
Lemma div_by_zero (x y : float) :
  is_zero y = true ->
  (if is_nan x || is_zero x then is_nan (x / y) else is_infinity (x / y)) = true.
Proof.
  rewrite (is_zero_Prim2SF y), (is_nan_Prim2SF x), (is_zero_Prim2SF x),
    (is_nan_Prim2SF (x / y)), (is_infinity_Prim2SF (x / y)), div_spec.
  unfold SF64div.
  destruct (Prim2SF y) as [sy | sy | | sy my ey]; try discriminate.
  intros _. destruct (Prim2SF x) as [sx | sx | | sx mx ex]; reflexivity.
Qed.

Lemma series_div_nth (a b : Series) (i : nat) (x y : float) :
  nth_error a i = Some x -> nth_error b i = Some y ->
  nth_error (series_div a b) i = Some (x / y).
Proof.
  revert b i. induction a as [| x0 a IH]; intros [| y0 b] [| i]; simpl;
    try discriminate.
  - now intros [= ->] [= ->].
  - apply IH.
Qed.

(** C2, as the specification words it, fails: a sample with Na = 23 and
    Cl = 0 has Cl_meq = 0 and the ratio Na_Cl = +infinity, which is neither a
    marker nor skipped by the median (here 2, the middle of 1, 2 and
    +infinity). *)
Lemma zero_chloride_ratio_is_infinite :
  ~ (forall (na ca mg cl hco3 ec : Series) (i : nat) (y q : float),
       nth_error (Cl_meq (enrich na ca mg cl hco3 ec)) i = Some y ->
       is_zero y = true ->
       nth_error (Na_Cl (enrich na ca mg cl hco3 ec)) i = Some q ->
       is_infinity q = false /\ is_nan q = false) /\
  Cl_meq Examples.zero_chloride = [0; 1; 1] /\
  Na_Cl Examples.zero_chloride = [infinity; 1; 2] /\
  median_na_cl (population_statistics Examples.zero_chloride) = 2.
Proof.
  split; [| repeat split; vm_compute; reflexivity].
  intros H.
  destruct (H [23; 23; 46] (repeat 40 3) (repeat 24.3 3) [0; 35.45; 35.45]
              (repeat 61 3) (repeat 500 3) 0%nat 0 infinity)
    as [Hinf _]; try (vm_compute; reflexivity).
  vm_compute in Hinf. discriminate Hinf.
Qed.

(** C2 (amended): for every sample whose Cl_meq is zero, Na_Cl is the
    IEEE-754 quotient Na_meq / Cl_meq: NaN (the missing-value marker of
    pandas) when Na_meq is zero or NaN, an infinity otherwise; likewise
    Cl_HCO3 when HCO3_meq is zero. *)
Theorem zero_denominator_ratio (na ca mg cl hco3 ec : Series) :
  let out := enrich na ca mg cl hco3 ec in
  (forall (i : nat) (x y : float),
     nth_error (Na_meq out) i = Some x ->
     nth_error (Cl_meq out) i = Some y ->
     is_zero y = true ->
     nth_error (Na_Cl out) i = Some (x / y) /\
     (if is_nan x || is_zero x then is_nan (x / y)
      else is_infinity (x / y)) = true) /\
  (forall (i : nat) (x y : float),
     nth_error (Cl_meq out) i = Some x ->
     nth_error (HCO3_meq out) i = Some y ->
     is_zero y = true ->
     nth_error (Cl_HCO3 out) i = Some (x / y) /\
     (if is_nan x || is_zero x then is_nan (x / y)
      else is_infinity (x / y)) = true).
Proof.
  split; intros i x y Hx Hy Hzero;
    (split; [now apply series_div_nth | now apply div_by_zero]).
Qed.

(** The claim on the first of three samples, Na = 23 and Cl = 0. *)
Lemma zero_denominator_ratio_witness :
  nth_error (Na_Cl Examples.zero_chloride) 0 = Some (1 / 0) /\
  is_infinity (1 / 0) = true.
Proof.
  apply (proj1 (zero_denominator_ratio [23; 23; 46] (repeat 40 3)
                  (repeat 24.3 3) [0; 35.45; 35.45] (repeat 61 3)
                  (repeat 500 3)) 0%nat 1 0); reflexivity.
Defined.

(** ** The medians *)

Lemma dropna_In (s : Series) (x : float) :
  In x (dropna s) <-> In x s /\ is_nan x = false.
Proof.
  unfold dropna. rewrite filter_In, negb_true_iff. reflexivity.
Qed.

Lemma dropna_insert (s1 s2 : Series) (x : float) :
  is_nan x = true -> dropna (s1 ++ x :: s2)%list = dropna (s1 ++ s2)%list.
Proof.
  intros Hnan. unfold dropna. rewrite !filter_app. simpl.
  now rewrite Hnan.
Qed.

(** C4, as the specification words it, fails: of the ratios +infinity, 1
    and 2 the first has a zero denominator; the median over the defined ones
    is 1.5, the pipeline's is 2. *)
Lemma median_counts_infinite_ratio :
  ~ (forall na ca mg cl hco3 ec : Series,
       median_na_cl (population_statistics (enrich na ca mg cl hco3 ec)) =
       median (spec_defined_ratios (Na_meq (enrich na ca mg cl hco3 ec))
                              (Cl_meq (enrich na ca mg cl hco3 ec)))).
Proof.
  intros H.
  specialize (H [23; 23; 46] (repeat 40 3) (repeat 24.3 3) [0; 35.45; 35.45]
                (repeat 61 3) (repeat 500 3)).
  vm_compute in H.
  assert (Hneq : (2 =? 1.5) = false) by reflexivity.
  rewrite H in Hneq. vm_compute in Hneq. discriminate Hneq.
Qed.

Lemma le_cell_total (x y : float) :
  is_num x = true -> is_num y = true -> (x <=? y) = false -> le_cell y x.
Proof.
  intros Nx Ny H. apply ltb_leb. now apply not_leb_gtb.
Qed.

Lemma insert_sorted_permutation (x : float) (s : Series) :
  Permutation (insert_sorted x s) (x :: s).
Proof.
  induction s as [| y s IH]; simpl; [apply Permutation_refl |].
  destruct (x <=? y); [apply Permutation_refl |].
  apply (perm_trans (l' := y :: x :: s)); [now apply perm_skip | apply perm_swap].
Qed.

Lemma sort_values_permutation (s : Series) : Permutation (sort_values s) s.
Proof.
  induction s as [| x s IH]; simpl; [apply Permutation_refl |].
  apply (perm_trans (l' := x :: sort_values s));
    [apply insert_sorted_permutation | now apply perm_skip].
Qed.

Lemma insert_sorted_sorted (x : float) (s : Series) :
  is_num x = true -> Forall (fun y => is_num y = true) s ->
  StronglySorted le_cell s -> StronglySorted le_cell (insert_sorted x s).
Proof.
  intros Nx Ns Hs. induction Hs as [| y s Hs IH Hy]; simpl.
  - constructor; constructor.
  - inversion Ns as [| ? ? Ny Ns']; subst.
    destruct (x <=? y) eqn:E.
    + constructor; [now constructor |].
      constructor; [exact E |].
      apply (Forall_impl (P := le_cell y)); [| exact Hy].
      intros z Hz. now apply (leb_trans x y z).
    + constructor; [now apply IH |].
      apply (Permutation_Forall
               (Permutation_sym (insert_sorted_permutation x s))).
      constructor; [now apply le_cell_total | exact Hy].
Qed.

Lemma sort_values_sorted (s : Series) :
  Forall (fun y => is_num y = true) s -> StronglySorted le_cell (sort_values s).
Proof.
  intros Ns. induction Ns as [| x s Nx Ns IH]; simpl; [constructor |].
  apply insert_sorted_sorted; [exact Nx | | exact IH].
  now apply (Permutation_Forall (Permutation_sym (sort_values_permutation s))).
Qed.

Lemma dropna_is_num (s : Series) :
  Forall (fun y => is_num y = true) (dropna s).
Proof.
  apply Forall_forall. intros y Hy. apply dropna_In in Hy.
  destruct Hy as [_ Hy]. unfold is_nan in Hy. unfold is_num.
  now apply negb_false_iff in Hy.
Qed.

Lemma is_infinity_not_nan (q : float) :
  is_infinity q = true -> is_nan q = false.
Proof.
  rewrite is_infinity_Prim2SF, is_nan_Prim2SF.
  destruct (Prim2SF q); try discriminate; reflexivity.
Qed.

(** The median the pipeline computes is the median of the cells that are
    not NaN, put in order. *)
Lemma median_is_median_of (s : Series) : is_median_of (dropna s) (median s).
Proof.
  unfold is_median_of, median.
  pose proof (sort_values_permutation (dropna s)) as Hperm.
  rewrite (Permutation_length Hperm).
  destruct (Nat.eqb (List.length (dropna s)) 0); [reflexivity |].
  exists (sort_values (dropna s)). split; [exact Hperm |].
  split; [apply sort_values_sorted, dropna_is_num | reflexivity].
Qed.

(** C4 (amended): [median_na_cl] and [median_cl_hco3] are the medians of the
    Na_Cl and Cl_HCO3 columns over exactly the samples whose ratio is not
    NaN: a NaN ratio (such as 0/0) is left out, not counted as zero, and any
    other ratio takes part, an infinite one included, as the ratio of a
    sample with a zero denominator and a numerator that is neither zero nor
    NaN is.  The median is NaN when no ratio is left, else the middle one of
    the ordered ratios, or the mean of the two middle ones. *)
Theorem median_excludes_nan (s1 s2 : Series) (x : float)
  (Hnan : is_nan x = true) :
  median (s1 ++ x :: s2)%list = median (s1 ++ s2)%list /\
  (forall (s : Series) (v : float),
     In v (dropna s) <-> In v s /\ is_nan v = false) /\
  (forall (s : Series) (v : float),
     In v s -> is_infinity v = true -> In v (dropna s)) /\
  (forall df : Enriched,
     is_median_of (dropna (Na_Cl df))
       (median_na_cl (population_statistics df)) /\
     is_median_of (dropna (Cl_HCO3 df))
       (median_cl_hco3 (population_statistics df))) /\
  (forall (na ca mg cl hco3 ec : Series) (i : nat) (a b : float),
     nth_error (Na_meq (enrich na ca mg cl hco3 ec)) i = Some a ->
     nth_error (Cl_meq (enrich na ca mg cl hco3 ec)) i = Some b ->
     is_zero b = true -> is_nan a || is_zero a = false ->
     is_infinity (a / b) = true /\
     In (a / b) (dropna (Na_Cl (enrich na ca mg cl hco3 ec)))) /\
  (forall df : Enriched,
     median_na_cl (population_statistics df) = median (Na_Cl df) /\
     median_cl_hco3 (population_statistics df) = median (Cl_HCO3 df)).
Proof.
  assert (Hinf : forall (s : Series) (v : float),
            In v s -> is_infinity v = true -> In v (dropna s)).
  { intros s v Hin Hv. apply dropna_In. split; [exact Hin |].
    now apply is_infinity_not_nan. }
  split; [| split; [apply dropna_In | split; [exact Hinf | split; [| split]]]].
  - unfold median. now rewrite (dropna_insert s1 s2 x Hnan).
  - intros df. split; apply median_is_median_of.
  - intros na ca mg cl hco3 ec i a b Ha Hb Hzero Hnum.
    pose proof (div_by_zero a b Hzero) as Hdiv. rewrite Hnum in Hdiv.
    split; [exact Hdiv |].
    apply Hinf; [| exact Hdiv].
    apply (nth_error_In _ i). apply series_div_nth; assumption.
  - intros df. split; reflexivity.
Qed.

(** The claim on the ratios 1, 0/0 and 2, whose median is 1.5, that of 1 and
    2, not the 1 a zero in the middle would give; and on the ratios
    +infinity, 1 and 2 of the three samples of which the first has no
    chloride, whose median is 2, the middle one of 1, 2, +infinity. *)
Lemma median_excludes_nan_witness :
  (median ([1] ++ (0 / 0) :: [2])%list = median ([1] ++ [2])%list /\
   median [1; 0 / 0; 2] = 1.5 /\ median [1; 0; 2] = 1) /\
  (In infinity (dropna (Na_Cl Examples.zero_chloride)) /\
   is_median_of (dropna (Na_Cl Examples.zero_chloride))
     (median_na_cl (population_statistics Examples.zero_chloride)) /\
   Na_Cl Examples.zero_chloride = [infinity; 1; 2] /\
   median_na_cl (population_statistics Examples.zero_chloride) = 2).
Proof.
  pose proof (median_excludes_nan [1] [2] (0 / 0) eq_refl)
    as (Hskip & _ & _ & Hmed & Hzero & _).
  split; [split; [exact Hskip | split; vm_compute; reflexivity] |].
  split; [| split; [apply Hmed | split; vm_compute; reflexivity]].
  apply (Hzero [23; 23; 46] (repeat 40 3) (repeat 24.3 3) [0; 35.45; 35.45]
           (repeat 61 3) (repeat 500 3) 0%nat 1 0); reflexivity.
Defined.

(** * Further properties *)

Import FloatRounding.

(** ** The classifier on arbitrary readings *)

(** A comparison with a NaN fails. *)
Lemma gtb_nan (x t : float) : is_nan x = true -> gtb x t = false.
Proof.
  intros Hnan. unfold gtb. destruct (t <? x) eqn:E; [| reflexivity].
  apply ltb_is_num in E. destruct E as [_ E].
  unfold is_nan in Hnan. unfold is_num in E. rewrite E in Hnan. discriminate.
Qed.

Lemma gtb_weaken (x lo hi : float) :
  (lo <=? hi) = true -> gtb x hi = true -> gtb x lo = true.
Proof. unfold gtb. intros Hle Hgt. now apply (leb_ltb_trans lo hi x). Qed.

Lemma gtb_mono (x y t : float) :
  (x <=? y) = true -> gtb x t = true -> gtb y t = true.
Proof. unfold gtb. intros Hle Hgt. now apply (ltb_leb_trans t x y). Qed.

Lemma ec_points_mono (x y : float) :
  (x <=? y) = true -> (ec_points x <= ec_points y)%Z.
Proof.
  intros Hle. unfold ec_points.
  destruct (gtb x 1500) eqn:E1.
  - now rewrite (gtb_mono x y 1500 Hle E1).
  - destruct (gtb x 750) eqn:E2.
    + rewrite (gtb_mono x y 750 Hle E2). destruct (gtb y 1500); lia.
    + destruct (gtb y 1500), (gtb y 750); lia.
Qed.

Lemma cl_points_mono (x y : float) :
  (x <=? y) = true -> (cl_points x <= cl_points y)%Z.
Proof.
  intros Hle. unfold cl_points.
  destruct (gtb x 250) eqn:E1.
  - now rewrite (gtb_mono x y 250 Hle E1).
  - destruct (gtb x 100) eqn:E2.
    + rewrite (gtb_mono x y 100 Hle E2). destruct (gtb y 250); lia.
    + destruct (gtb y 250), (gtb y 100); lia.
Qed.

(** The score decides the status, whatever the readings. *)
Lemma classify_by_score (ec cl : float) :
  let (status, score) := classify_salinisation ec cl in
  score = (ec_points ec + cl_points cl)%Z /\
  In score [0; 25; 50; 75; 100]%Z /\
  (status = SALINE /\ (75 <= score)%Z \/
   status = SLIGHTLY_SALINE /\ score = 50%Z \/
   status = FRESH /\ (score <= 25)%Z).
Proof.
  unfold classify_salinisation.
  destruct (proj1 (points_values ec)) as [He | [He | [He | []]]];
    destruct (proj2 (points_values cl)) as [Hc | [Hc | [Hc | []]]];
    rewrite <- He, <- Hc; simpl; repeat split; try lia;
    first [ left; split; [reflexivity | lia]
          | right; left; split; [reflexivity | lia]
          | right; right; split; [reflexivity | lia] ].
Qed.

(** X1: for any two readings, NaN and negative ones included, the score is
    one of 0, 25, 50, 75, 100 and the status is Saline exactly from 75 on,
    Slightly Saline exactly at 50 and Fresh exactly up to 25. *)
Theorem status_iff_score (ec cl : float) :
  let (status, score) := classify_salinisation ec cl in
  In score [0; 25; 50; 75; 100]%Z /\
  (status = SALINE <-> (75 <= score)%Z) /\
  (status = SLIGHTLY_SALINE <-> score = 50%Z) /\
  (status = FRESH <-> (score <= 25)%Z).
Proof.
  pose proof (classify_by_score ec cl) as H.
  destruct (classify_salinisation ec cl) as [status score].
  destruct H as (_ & Hin & [[-> Hs] | [[-> Hs] | [-> Hs]]]);
    (split; [exact Hin |]); repeat split; intros H;
    try reflexivity; try lia; try discriminate H.
Qed.

(** X2: a sample is Saline exactly when EC > 1500 and Cl > 100, or EC > 750
    and Cl > 250; one reading alone, however high, never makes it Saline. *)
Theorem saline_iff_thresholds (ec cl : float) :
  fst (classify_salinisation ec cl) = SALINE <->
  (gtb ec 1500 = true /\ gtb cl 100 = true) \/
  (gtb ec 750 = true /\ gtb cl 250 = true).
Proof.
  pose proof (gtb_weaken ec 750 1500 eq_refl) as Wec.
  pose proof (gtb_weaken cl 100 250 eq_refl) as Wcl.
  unfold classify_salinisation, ec_points, cl_points.
  destruct (gtb ec 1500) eqn:E1, (gtb ec 750) eqn:E2,
    (gtb cl 250) eqn:C1, (gtb cl 100) eqn:C2; simpl;
    try (specialize (Wec eq_refl); discriminate Wec);
    try (specialize (Wcl eq_refl); discriminate Wcl);
    split; intros H; try reflexivity; try discriminate H;
    try (left; split; reflexivity); try (right; split; reflexivity);
    destruct H as [[H1 H2] | [H1 H2]]; discriminate.
Qed.

(** X3: raising EC or Cl never lowers the score nor the status. *)
Theorem classify_monotone (ec ec' cl cl' : float)
  (Hec : (ec <=? ec') = true) (Hcl : (cl <=? cl') = true) :
  (snd (classify_salinisation ec cl) <=
   snd (classify_salinisation ec' cl'))%Z /\
  status_rank (fst (classify_salinisation ec cl)) <=
  status_rank (fst (classify_salinisation ec' cl')).
Proof.
  pose proof (ec_points_mono ec ec' Hec) as Me.
  pose proof (cl_points_mono cl cl' Hcl) as Mc.
  unfold classify_salinisation.
  destruct (proj1 (points_values ec)) as [He | [He | [He | []]]];
    destruct (proj2 (points_values cl)) as [Hc | [Hc | [Hc | []]]];
    destruct (proj1 (points_values ec')) as [He' | [He' | [He' | []]]];
    destruct (proj2 (points_values cl')) as [Hc' | [Hc' | [Hc' | []]]];
    rewrite <- He, <- Hc, <- He', <- Hc' in *; try lia;
    (split; [simpl; lia | vm_compute; lia]).
Qed.

(** The claim from EC = 800, Cl = 90 (Fresh, 25) to EC = 1600, Cl = 120
    (Saline, 75). *)
Lemma classify_monotone_witness :
  (snd (classify_salinisation 800 90) <=
   snd (classify_salinisation 1600 120))%Z /\
  status_rank (fst (classify_salinisation 800 90)) <=
  status_rank (fst (classify_salinisation 1600 120)).
Proof.
  apply (classify_monotone 800 1600 90 120); reflexivity.
Defined.

(** X4: a missing (NaN) EC reading earns no points: the score is that of Cl
    alone and the sample is never Saline; likewise a missing Cl reading; with
    both missing the sample is Fresh with score 0. *)
Theorem missing_reading_scores_nothing (ec cl : float) :
  (is_nan ec = true ->
   snd (classify_salinisation ec cl) = cl_points cl /\
   fst (classify_salinisation ec cl) <> SALINE) /\
  (is_nan cl = true ->
   snd (classify_salinisation ec cl) = ec_points ec /\
   fst (classify_salinisation ec cl) <> SALINE) /\
  (is_nan ec = true -> is_nan cl = true ->
   classify_salinisation ec cl = (FRESH, 0%Z)).
Proof.
  assert (He : is_nan ec = true -> ec_points ec = 0%Z).
  { intros H. unfold ec_points. now rewrite !(gtb_nan ec _ H). }
  assert (Hc : is_nan cl = true -> cl_points cl = 0%Z).
  { intros H. unfold cl_points. now rewrite !(gtb_nan cl _ H). }
  unfold classify_salinisation. split; [| split].
  - intros H. rewrite (He H).
    destruct (proj2 (points_values cl)) as [E | [E | [E | []]]];
      rewrite <- E; simpl; split; try reflexivity; discriminate.
  - intros H. rewrite (Hc H).
    destruct (proj1 (points_values ec)) as [E | [E | [E | []]]];
      rewrite <- E; simpl; split; try reflexivity; discriminate.
  - intros H1 H2. now rewrite (He H1), (Hc H2).
Qed.

(** The claim at two missing readings. *)
Lemma missing_reading_scores_nothing_witness :
  classify_salinisation nan nan = (FRESH, 0%Z).
Proof.
  apply (proj2 (proj2 (missing_reading_scores_nothing nan nan)));
    reflexivity.
Defined.

(** ** The run as a whole *)

(** X5: a run never fails on a column lookup: when the table has all six
    required columns, in any order and among any others, the run completes
    with the table enriched from exactly those columns and the
    recommendation computed from it; otherwise the column check stops it. *)
Theorem run_stops_or_completes (df : DataFrame) :
  run df <> KeyError /\
  ((forall c, In c required_cols -> In c (columns df)) ->
   exists na ca mg cl hco3 ec,
     getcol df "Na" = Some na /\ getcol df "Ca" = Some ca /\
     getcol df "Mg" = Some mg /\ getcol df "Cl" = Some cl /\
     getcol df "HCO3" = Some hco3 /\ getcol df "EC" = Some ec /\
     run df = Completed (enrich na ca mg cl hco3 ec)
                (generate_overall_recommendation
                   (enrich na ca mg cl hco3 ec))) /\
  (~ (forall c, In c required_cols -> In c (columns df)) ->
   exists missing, missing <> [] /\ run df = Stopped missing).
Proof.
  assert (Hall : missing_columns df = [] <->
                 forall c, In c required_cols -> In c (columns df)).
  { split.
    - intros Hnone c Hc. apply has_column_In.
      destruct (has_column df c) eqn:E; [reflexivity |].
      assert (Hin : In c (missing_columns df)).
      { apply missing_columns_spec. split; [exact Hc |].
        rewrite <- has_column_In. congruence. }
      rewrite Hnone in Hin. destruct Hin.
    - intros Hpresent. destruct (missing_columns df) as [| c l] eqn:E;
        [reflexivity |].
      assert (Hin : In c (missing_columns df)) by (rewrite E; now left).
      apply missing_columns_spec in Hin. destruct Hin as [Hc Hnot].
      elim Hnot. now apply Hpresent. }
  assert (Hcomplete : (forall c, In c required_cols -> In c (columns df)) ->
     exists na ca mg cl hco3 ec,
       getcol df "Na" = Some na /\ getcol df "Ca" = Some ca /\
       getcol df "Mg" = Some mg /\ getcol df "Cl" = Some cl /\
       getcol df "HCO3" = Some hco3 /\ getcol df "EC" = Some ec /\
       run df = Completed (enrich na ca mg cl hco3 ec)
                  (generate_overall_recommendation
                     (enrich na ca mg cl hco3 ec))).
  { intros Hpresent. unfold run. rewrite (proj2 Hall Hpresent).
    assert (Hget : forall c, In c required_cols ->
                             exists col, getcol df c = Some col).
    { intros c Hc. apply getcol_has_column, has_column_In.
      now apply Hpresent. }
    destruct (Hget "Na") as [na ->]; [simpl; tauto |].
    destruct (Hget "Ca") as [ca ->]; [simpl; tauto |].
    destruct (Hget "Mg") as [mg ->]; [simpl; tauto |].
    destruct (Hget "Cl") as [cl ->]; [simpl; tauto |].
    destruct (Hget "HCO3") as [hco3 ->]; [simpl; tauto |].
    destruct (Hget "EC") as [ec ->]; [simpl; tauto |].
    exists na, ca, mg, cl, hco3, ec. repeat split; reflexivity. }
  split; [| split; [exact Hcomplete |]].
  - destruct (missing_columns df) as [| c l] eqn:E.
    + destruct (Hcomplete (proj1 Hall eq_refl))
        as (na & ca & mg & cl & hco3 & ec & _ & _ & _ & _ & _ & _ & ->).
      discriminate.
    + unfold run. rewrite E. discriminate.
  - intros Hnot. exists (missing_columns df).
    destruct (missing_columns df) as [| c l] eqn:E.
    + elim Hnot. now apply Hall.
    + split; [discriminate |]. unfold run. now rewrite E.
Qed.

Lemma has_column_cons (df : DataFrame) (name c : string) (col : Series) :
  has_column ((name, col) :: df) c = String.eqb c name || has_column df c.
Proof. reflexivity. Qed.

Lemma getcol_cons (df : DataFrame) (name c : string) (col : Series) :
  getcol ((name, col) :: df) c =
  if String.eqb c name then Some col else getcol df c.
Proof. reflexivity. Qed.

Lemma eqb_not_required (name c : string) :
  ~ In name required_cols -> In c required_cols -> String.eqb c name = false.
Proof.
  intros Hnot Hin. apply String.eqb_neq. intros ->. now apply Hnot.
Qed.

Lemma has_column_insert (df1 df2 : DataFrame) (name c : string) (col : Series) :
  String.eqb c name = false ->
  has_column (df1 ++ (name, col) :: df2)%list c = has_column (df1 ++ df2)%list c.
Proof.
  intros Hneq. induction df1 as [| [n0 c0] df1 IH].
  - simpl app. now rewrite has_column_cons, Hneq.
  - simpl app. now rewrite !has_column_cons, IH.
Qed.

Lemma getcol_insert (df1 df2 : DataFrame) (name c : string) (col : Series) :
  String.eqb c name = false ->
  getcol (df1 ++ (name, col) :: df2)%list c = getcol (df1 ++ df2)%list c.
Proof.
  intros Hneq. induction df1 as [| [n0 c0] df1 IH].
  - simpl app. now rewrite getcol_cons, Hneq.
  - simpl app. now rewrite !getcol_cons, IH.
Qed.

(** X6: a column the pipeline does not require is ignored: wherever it
    stands among the table's columns, the run ends as without it. *)
Theorem extra_column_ignored (df1 df2 : DataFrame) (name : string)
  (col : Series) (Hextra : ~ In name required_cols) :
  run (df1 ++ (name, col) :: df2)%list = run (df1 ++ df2)%list.
Proof.
  pose proof (eqb_not_required name) as Hneq.
  assert (Hmiss : missing_columns (df1 ++ (name, col) :: df2)%list =
                  missing_columns (df1 ++ df2)%list).
  { unfold missing_columns. apply filter_ext_in. intros c Hc.
    now rewrite has_column_insert by (now apply Hneq). }
  unfold run. rewrite Hmiss.
  rewrite !getcol_insert by (apply Hneq; [exact Hextra | simpl; tauto]).
  reflexivity.
Qed.

(** The claim with a pH column between Na and Ca of a one-row table. *)
Lemma extra_column_ignored_witness :
  run [("Na", [23]); ("pH", [7]); ("Ca", [40]); ("Mg", [24.3]);
       ("Cl", [35.45]); ("HCO3", [61]); ("EC", [500])] =
  run (frame [23] [40] [24.3] [35.45] [61] [500]).
Proof.
  apply (extra_column_ignored [("Na", [23])]
           [("Ca", [40]); ("Mg", [24.3]); ("Cl", [35.45]); ("HCO3", [61]);
            ("EC", [500])] "pH" [7]).
  simpl. intros [H | [H | [H | [H | [H | [H | []]]]]]]; discriminate H.
Defined.

Lemma series_div_length (a b : Series) :
  List.length a = List.length b ->
  List.length (series_div a b) = List.length a.
Proof.
  revert b. induction a as [| x a IH]; intros [| y b]; simpl;
    try reflexivity; try discriminate.
  intros [= H]. now rewrite IH.
Qed.

Lemma classify_rows_length (ec cl : Series) :
  List.length ec = List.length cl ->
  List.length (classify_rows ec cl) = List.length ec.
Proof.
  revert cl. induction ec as [| e ec IH]; intros [| c cl]; simpl;
    try reflexivity; try discriminate.
  intros [= H]. now rewrite IH.
Qed.

(** X7: on a table of [n] rows every column the pipeline adds has [n]
    rows: one equivalent per ion, one value per ratio, one status and one
    score per sample. *)
Theorem enrich_keeps_row_count (na ca mg cl hco3 ec : Series) (n : nat)
  (Hna : List.length na = n) (Hca : List.length ca = n)
  (Hmg : List.length mg = n) (Hcl : List.length cl = n)
  (Hhco3 : List.length hco3 = n) (Hec : List.length ec = n) :
  let out := enrich na ca mg cl hco3 ec in
  List.length (Na_meq out) = n /\ List.length (Ca_meq out) = n /\
  List.length (Mg_meq out) = n /\ List.length (Cl_meq out) = n /\
  List.length (HCO3_meq out) = n /\
  List.length (Na_Cl out) = n /\ List.length (Cl_HCO3 out) = n /\
  List.length (Salinity_Status out) = n /\ List.length (Confidence out) = n.
Proof.
  simpl. unfold series_mgL_to_meq.
  rewrite !series_div_length, !length_map, classify_rows_length;
    rewrite ?length_map; intuition congruence.
Qed.

(** The claim on the table of three samples, the first without chloride. *)
Lemma enrich_keeps_row_count_witness :
  List.length (Na_Cl Examples.zero_chloride) = 3%nat /\
  List.length (Salinity_Status Examples.zero_chloride) = 3%nat.
Proof.
  pose proof (enrich_keeps_row_count [23; 23; 46] (repeat 40 3)
                (repeat 24.3 3) [0; 35.45; 35.45] (repeat 61 3)
                (repeat 500 3) 3 eq_refl eq_refl eq_refl eq_refl eq_refl
                eq_refl) as H.
  split; apply H.
Defined.

Lemma classify_status_cases (ec cl : float) :
  fst (classify_salinisation ec cl) = SALINE \/
  fst (classify_salinisation ec cl) = SLIGHTLY_SALINE \/
  fst (classify_salinisation ec cl) = FRESH.
Proof.
  pose proof (classify_by_score ec cl) as H.
  destruct (classify_salinisation ec cl) as [status score]. simpl.
  destruct H as (_ & _ & [[-> _] | [[-> _] | [-> _]]]); tauto.
Qed.

(** X8: every sample of the enriched table carries exactly one of the three
    labels: the numbers of Saline, Slightly Saline and Fresh samples add up
    to the number of classified rows. *)
Theorem labels_partition_rows (na ca mg cl hco3 ec : Series) :
  let col := Salinity_Status (enrich na ca mg cl hco3 ec) in
  (count_label SALINE col + count_label SLIGHTLY_SALINE col +
   count_label FRESH col)%nat = List.length col.
Proof.
  simpl. revert cl. induction ec as [| e ec IH]; intros [| c cl]; try reflexivity.
  simpl classify_rows. simpl map. unfold count_label in *. simpl filter.
  specialize (IH cl).
  destruct (classify_status_cases e c) as [-> | [-> | ->]];
    simpl; simpl in IH; lia.
Qed.

(** ** The recommendation on whole populations *)

(** Without Saline and Slightly Saline samples both shares are 0 and the
    first branch is taken. *)
Lemma branch_without_saline (df : Enriched) :
  count_label SALINE (Salinity_Status df) = 0%nat ->
  count_label SLIGHTLY_SALINE (Salinity_Status df) = 0%nat ->
  overall_branch df = FreshAquifer.
Proof.
  intros H1 H2. unfold overall_branch, population_statistics, value_share.
  simpl. now rewrite H1, H2.
Qed.

(** X9: when no sample is Saline or Slightly Saline (an empty status column
    included), the recommendation is the fresh-aquifer text, whatever the
    ratios are. *)
Theorem no_saline_sample_fresh_aquifer (df : Enriched)
  (Hsaline : count_label SALINE (Salinity_Status df) = 0%nat)
  (Hslight : count_label SLIGHTLY_SALINE (Salinity_Status df) = 0%nat) :
  generate_overall_recommendation df = recommendation_text FreshAquifer.
Proof.
  unfold generate_overall_recommendation.
  now rewrite (branch_without_saline df Hsaline Hslight).
Qed.

(** The claim on the table without rows. *)
Lemma no_saline_sample_fresh_aquifer_witness :
  generate_overall_recommendation (enrich [] [] [] [] [] []) =
  recommendation_text FreshAquifer.
Proof.
  apply (no_saline_sample_fresh_aquifer (enrich [] [] [] [] [] []));
    reflexivity.
Defined.

Lemma low_rows_all_fresh (ec cl : Series) :
  Forall (fun e => gtb e 750 = false) ec ->
  Forall (fun c => gtb c 100 = false) cl ->
  Forall (fun status => status = FRESH) (map fst (classify_rows ec cl)).
Proof.
  intros Hec. revert cl.
  induction Hec as [| e ec He Hec IH]; intros cl Hcl; [constructor |].
  destruct Hcl as [| c cl Hc Hcl]; [constructor |].
  simpl. constructor; [| now apply IH].
  assert (He' : gtb e 1500 = false).
  { destruct (gtb e 1500) eqn:E; [| reflexivity].
    now rewrite (gtb_weaken e 750 1500 eq_refl E) in He. }
  assert (Hc' : gtb c 250 = false).
  { destruct (gtb c 250) eqn:E; [| reflexivity].
    now rewrite (gtb_weaken c 100 250 eq_refl E) in Hc. }
  unfold classify_salinisation, ec_points, cl_points.
  now rewrite He, He', Hc, Hc'.
Qed.

Lemma count_label_all_fresh (label : string) (col : list string) :
  Forall (fun status => status = FRESH) col ->
  String.eqb label FRESH = false -> count_label label col = 0%nat.
Proof.
  intros Hall Hneq. unfold count_label.
  induction Hall as [| status col -> _ IH]; [reflexivity |].
  simpl. now rewrite Hneq.
Qed.

(** X10: a table in which no EC reading exceeds 750 and no Cl reading
    exceeds 100 (missing readings included) is given the fresh-aquifer
    recommendation by the pipeline, whatever its other columns hold. *)
Theorem low_readings_fresh_aquifer (na ca mg cl hco3 ec : Series)
  (Hec : Forall (fun e => gtb e 750 = false) ec)
  (Hcl : Forall (fun c => gtb c 100 = false) cl) :
  generate_overall_recommendation (enrich na ca mg cl hco3 ec) =
  recommendation_text FreshAquifer.
Proof.
  pose proof (low_rows_all_fresh ec cl Hec Hcl) as Hall.
  unfold generate_overall_recommendation.
  rewrite branch_without_saline; [reflexivity | |];
    simpl; now apply count_label_all_fresh.
Qed.

(** The claim on two samples with EC 500 and 750, Cl 35.45 and 100. *)
Lemma low_readings_fresh_aquifer_witness :
  generate_overall_recommendation
    (enrich [23; 23] [40; 40] [24.3; 24.3] [35.45; 100] [61; 61] [500; 750]) =
  recommendation_text FreshAquifer.
Proof.
  apply (low_readings_fresh_aquifer [23; 23] [40; 40] [24.3; 24.3]
           [35.45; 100] [61; 61] [500; 750]);
    repeat constructor.
Defined.

Lemma dropna_all_nan (s : Series) :
  Forall (fun q => is_nan q = true) s -> dropna s = [].
Proof.
  intros Hall. unfold dropna.
  induction Hall as [| q s Hq _ IH]; [reflexivity |].
  simpl. now rewrite Hq.
Qed.

(** X11: when no sample has a usable Na/Cl ratio (the column is empty or
    all NaN) the median is NaN, both tests on it fail, and a population with
    a Saline share of 0.4 or more is reported as chloride-dominated. *)
Theorem no_usable_ratio_chloride_dominated (df : Enriched)
  (Hratios : Forall (fun q => is_nan q = true) (Na_Cl df))
  (Hsaline : geb (saline_frac (population_statistics df)) 0.4 = true) :
  is_nan (median_na_cl (population_statistics df)) = true /\
  generate_overall_recommendation df = recommendation_text ChlorideDominated.
Proof.
  assert (Hmed : median_na_cl (population_statistics df) = nan).
  { simpl. unfold median. now rewrite (dropna_all_nan _ Hratios). }
  split; [now rewrite Hmed |].
  unfold generate_overall_recommendation, overall_branch.
  rewrite (branch_saline _ _ _ Hsaline), Hmed. reflexivity.
Qed.

(** The claim on two Saline samples whose sodium was not measured. *)
Lemma no_usable_ratio_chloride_dominated_witness :
  is_nan (median_na_cl (population_statistics
            (enrich [nan; nan] [40; 40] [24.3; 24.3] [300; 300] [61; 61]
                    [2000; 2000]))) = true /\
  generate_overall_recommendation
    (enrich [nan; nan] [40; 40] [24.3; 24.3] [300; 300] [61; 61]
            [2000; 2000]) =
  recommendation_text ChlorideDominated.
Proof.
  apply (no_usable_ratio_chloride_dominated
           (enrich [nan; nan] [40; 40] [24.3; 24.3] [300; 300] [61; 61]
                   [2000; 2000])).
  - repeat constructor.
  - vm_compute. reflexivity.
Defined.

Lemma select_branch_monotone_slight (sf sl1 sl2 m : float) :
  (sl1 <=? sl2) = true ->
  severity (select_branch sf sl1 m) <= severity (select_branch sf sl2 m).
Proof.
  intros Hle. unfold select_branch.
  destruct (sl2 <? 0.3) eqn:E2.
  - rewrite (leb_ltb_trans sl1 sl2 0.3 Hle E2). lia.
  - rewrite andb_false_r.
    destruct ((sf <? 0.2) && (sl1 <? 0.3)); [| lia].
    destruct (sf <? 0.4); [simpl; lia |].
    destruct (geb sf 0.4); [| simpl; lia].
    destruct ((0.85 <=? m) && (m <=? 1.15)); [simpl; lia |].
    destruct (gtb m 1.15); simpl; lia.
Qed.

(** X12: the severity of the selected branch grows with both shares: a
    population with at least the Saline share and at least the Slightly
    Saline share of another, and the same median Na/Cl, never gets a less
    severe recommendation. *)
Theorem severity_grows_with_shares (sf1 sf2 sl1 sl2 m : float)
  (Hsf : (sf1 <=? sf2) = true) (Hsl : (sl1 <=? sl2) = true) :
  severity (select_branch sf1 sl1 m) <= severity (select_branch sf2 sl2 m).
Proof.
  apply (Nat.le_trans _ (severity (select_branch sf1 sl2 m))).
  - now apply select_branch_monotone_slight.
  - now apply select_branch_monotone.
Qed.

(** The claim from shares 0.1 and 0.2 (fresh aquifer) to shares 0.1 and 0.5
    (early stage). *)
Lemma severity_grows_with_shares_witness :
  severity (select_branch 0.1 0.2 1) <= severity (select_branch 0.1 0.5 1).
Proof.
  apply (severity_grows_with_shares 0.1 0.1 0.2 0.5 1); reflexivity.
Defined.

(** ** Missing measurements and the medians *)

(** NaN is absorbing for division and multiplication. *)
Lemma div_nan (a b : float) :
  is_nan a = true \/ is_nan b = true -> is_nan (a / b) = true.
Proof.
  rewrite !is_nan_Prim2SF, div_spec. unfold SF64div.
  destruct (Prim2SF a), (Prim2SF b); intros [H | H];
    try discriminate H; reflexivity.
Qed.

Lemma mul_nan (a b : float) :
  is_nan a = true \/ is_nan b = true -> is_nan (a * b) = true.
Proof.
  rewrite !is_nan_Prim2SF, mul_spec. unfold SF64mul.
  destruct (Prim2SF a), (Prim2SF b); intros [H | H];
    try discriminate H; reflexivity.
Qed.

Lemma mgL_to_meq_nan (x mw charge : float) :
  is_nan x = true -> is_nan (mgL_to_meq x mw charge) = true.
Proof.
  intros H. unfold mgL_to_meq. apply mul_nan. left. apply div_nan. now left.
Qed.

Lemma series_div_app (a1 a2 b1 b2 : Series) :
  List.length a1 = List.length b1 ->
  series_div (a1 ++ a2)%list (b1 ++ b2)%list =
  (series_div a1 b1 ++ series_div a2 b2)%list.
Proof.
  revert b1. induction a1 as [| x a1 IH]; intros [| y b1]; simpl;
    try reflexivity; try discriminate.
  intros [= H]. now rewrite IH.
Qed.

Lemma div_zero_numerator (x y : float) :
  is_zero x = true -> positive_finite y -> is_zero (x / y) = true.
Proof.
  rewrite !is_zero_Prim2SF, div_spec. intros Hx (m & e & ->).
  destruct (Prim2SF x); try discriminate Hx. reflexivity.
Qed.

Lemma mul_zero (x y : float) :
  is_zero x = true -> positive_finite y -> is_zero (x * y) = true.
Proof.
  rewrite !is_zero_Prim2SF, mul_spec. intros Hx (m & e & ->).
  destruct (Prim2SF x); try discriminate Hx. reflexivity.
Qed.

Lemma mgL_to_meq_zero (x mw charge : float) :
  is_zero x = true -> positive_finite mw -> positive_finite charge ->
  is_zero (mgL_to_meq x mw charge) = true.
Proof.
  intros Hx Hmw Hch. unfold mgL_to_meq.
  apply mul_zero; [| exact Hch]. now apply div_zero_numerator.
Qed.

(** The Na/Cl ratio of a sample that lacks a measurement, or has neither
    sodium nor chloride, is NaN. *)
Lemma unusable_ratio_nan (x c : float) :
  is_nan x = true \/ is_nan c = true \/
  (is_zero x = true /\ is_zero c = true) ->
  is_nan (mgL_to_meq x 23 1 / mgL_to_meq c 35.45 1) = true.
Proof.
  assert (Hfin : forall y m e,
            Prim2SF y = S754_finite false m e -> positive_finite y)
    by (intros y m e H; now exists m, e).
  intros [H | [H | [Hx Hc]]].
  - apply div_nan. left. now apply mgL_to_meq_nan.
  - apply div_nan. right. now apply mgL_to_meq_nan.
  - assert (Hx' : is_zero (mgL_to_meq x 23 1) = true)
      by (apply mgL_to_meq_zero; [exact Hx | |];
          eapply Hfin; vm_compute; reflexivity).
    assert (Hc' : is_zero (mgL_to_meq c 35.45 1) = true)
      by (apply mgL_to_meq_zero; [exact Hc | |];
          eapply Hfin; vm_compute; reflexivity).
    pose proof (div_by_zero (mgL_to_meq x 23 1) (mgL_to_meq c 35.45 1) Hc')
      as Hdiv.
    now rewrite Hx', orb_true_r in Hdiv.
Qed.

(** X13: a sample whose Na or Cl measurement is missing (NaN), or whose Na
    and Cl are both zero, does not take part in [median_na_cl]: the median
    is that of the table without the sample. *)
Theorem unusable_sample_leaves_median
  (na1 na2 cl1 cl2 ca mg hco3 ec ca' mg' hco3' ec' : Series) (x c : float)
  (Hrows : List.length na1 = List.length cl1)
  (Hunusable : is_nan x = true \/ is_nan c = true \/
               (is_zero x = true /\ is_zero c = true)) :
  median_na_cl (population_statistics
    (enrich (na1 ++ x :: na2)%list ca mg (cl1 ++ c :: cl2)%list hco3 ec)) =
  median_na_cl (population_statistics
    (enrich (na1 ++ na2)%list ca' mg' (cl1 ++ cl2)%list hco3' ec')).
Proof.
  simpl. unfold series_mgL_to_meq. rewrite !map_app. simpl map.
  rewrite !series_div_app by (now rewrite !length_map).
  simpl series_div. unfold median.
  rewrite dropna_insert; [reflexivity |].
  now apply unusable_ratio_nan.
Qed.

(** The claim on three samples, the second with neither sodium nor
    chloride. *)
Lemma unusable_sample_leaves_median_witness :
  median_na_cl (population_statistics
    (enrich [23; 0; 46] [40; 40; 40] [24.3; 24.3; 24.3]
            [35.45; 0; 35.45] [61; 61; 61] [500; 500; 500])) =
  median_na_cl (population_statistics
    (enrich [23; 46] [40; 40] [24.3; 24.3] [35.45; 35.45] [61; 61]
            [500; 500])).
Proof.
  apply (unusable_sample_leaves_median [23] [46] [35.45] [35.45]
           [40; 40; 40] [24.3; 24.3; 24.3] [61; 61; 61] [500; 500; 500]
           [40; 40] [24.3; 24.3] [61; 61] [500; 500] 0 0).
  - reflexivity.
  - right. right. split; reflexivity.
Defined.

(** ** Shares and equivalents are never negative *)

Lemma float_of_nat_finite (n : nat) :
  (0 < n)%nat -> (Z.of_nat n < 2 ^ 53)%Z -> positive_finite (float_of_nat n).
Proof.
  intros Hpos Hsmall. unfold float_of_nat. apply of_count_finite. lia.
Qed.

Lemma count_label_le (label : string) (col : list string) :
  (count_label label col <= List.length col)%nat.
Proof. unfold count_label. apply filter_length_le. Qed.

(** The share of a label is a number, and not negative. *)
Lemma value_share_nonneg (col : list string) (label : string) :
  (Z.of_nat (List.length col) < 2 ^ 53)%Z ->
  (0 <=? value_share col label) = true.
Proof.
  intros Hrows. unfold value_share.
  pose proof (count_label_le label col) as Hle.
  destruct (count_label label col) as [| c] eqn:E; [reflexivity |].
  simpl Nat.eqb. cbv iota.
  assert (Hnum : positive_finite (float_of_nat (S c)))
    by (apply float_of_nat_finite; lia).
  assert (Hden : positive_finite (float_of_nat (List.length col)))
    by (apply float_of_nat_finite; lia).
  apply div_nonneg; [| exact Hden].
  apply leb_zero_nonneg. destruct Hnum as (m & e & ->). exact I.
Qed.

(** X14: on every table of fewer than 2^53 rows the Saline and Slightly
    Saline shares are numbers not below 0 (never NaN), so one of the first
    three branches matches and the insufficient-data text is never
    returned. *)
Theorem fallback_dead_on_every_table (df : Enriched)
  (Hrows : (Z.of_nat (List.length (Salinity_Status df)) < 2 ^ 53)%Z) :
  geb (saline_frac (population_statistics df)) 0 = true /\
  geb (slight_frac (population_statistics df)) 0 = true /\
  overall_branch df <> InsufficientData /\
  generate_overall_recommendation df <> recommendation_text InsufficientData.
Proof.
  pose proof (value_share_nonneg (Salinity_Status df) SALINE Hrows) as Hsf.
  pose proof (value_share_nonneg (Salinity_Status df) SLIGHTLY_SALINE Hrows)
    as Hsl.
  assert (Hb : overall_branch df <> InsufficientData).
  { apply branch_of_number. apply (leb_is_num 0 _), Hsf. }
  repeat split; try assumption.
  intros Htext. apply Hb. now apply recommendation_text_injective.
Qed.

(** The claim on the ten samples, five Saline and five Fresh. *)
Lemma fallback_dead_on_every_table_witness :
  overall_branch Examples.ten_samples <> InsufficientData.
Proof.
  apply (fallback_dead_on_every_table Examples.ten_samples).
  vm_compute. reflexivity.
Defined.

Lemma mgL_to_meq_nonneg (x mw charge : float) :
  (0 <=? x) = true -> positive_finite mw -> positive_finite charge ->
  (0 <=? mgL_to_meq x mw charge) = true.
Proof.
  intros Hx Hmw Hch. unfold mgL_to_meq.
  apply mul_nonneg; [| exact Hch]. now apply div_nonneg.
Qed.

Lemma series_mgL_to_meq_nonneg (s : Series) (mw charge : float) :
  positive_finite mw -> positive_finite charge ->
  Forall (fun x => geb x 0 = true) s ->
  Forall (fun x => geb x 0 = true) (series_mgL_to_meq s mw charge).
Proof.
  intros Hmw Hch Hall. unfold series_mgL_to_meq.
  induction Hall as [| x s Hx _ IH]; simpl; constructor; [| exact IH].
  now apply mgL_to_meq_nonneg.
Qed.

(** X15: concentrations that are not negative give equivalents that are not
    negative (and not NaN), for each of the five ions. *)
Theorem equivalents_nonnegative (na ca mg cl hco3 ec : Series)
  (Hna : Forall (fun x => geb x 0 = true) na)
  (Hca : Forall (fun x => geb x 0 = true) ca)
  (Hmg : Forall (fun x => geb x 0 = true) mg)
  (Hcl : Forall (fun x => geb x 0 = true) cl)
  (Hhco3 : Forall (fun x => geb x 0 = true) hco3) :
  let out := enrich na ca mg cl hco3 ec in
  Forall (fun x => geb x 0 = true) (Na_meq out) /\
  Forall (fun x => geb x 0 = true) (Ca_meq out) /\
  Forall (fun x => geb x 0 = true) (Mg_meq out) /\
  Forall (fun x => geb x 0 = true) (Cl_meq out) /\
  Forall (fun x => geb x 0 = true) (HCO3_meq out).
Proof.
  assert (Hfin : forall y m e,
            Prim2SF y = S754_finite false m e -> positive_finite y)
    by (intros y m e H; now exists m, e).
  simpl. repeat split; apply series_mgL_to_meq_nonneg;
    try assumption; eapply Hfin; vm_compute; reflexivity.
Qed.

(** The claim on the table of three samples, the first without chloride. *)
Lemma equivalents_nonnegative_witness :
  Forall (fun x => geb x 0 = true) (Cl_meq Examples.zero_chloride).
Proof.
  apply (equivalents_nonnegative [23; 23; 46] (repeat 40 3) (repeat 24.3 3)
           [0; 35.45; 35.45] (repeat 61 3) (repeat 500 3));
    repeat constructor.
Defined.

(** ** The order of columns and of samples *)

Lemma getcol_In (df : DataFrame) (c : string) (col : Series) :
  getcol df c = Some col -> In c (columns df).
Proof.
  induction df as [| [name col0] rest IH]; simpl; [discriminate |].
  destruct (String.eqb c name) eqn:E.
  - apply String.eqb_eq in E. now left.
  - intros H. right. now apply IH.
Qed.

Lemma getcol_permutation (df df' : DataFrame) (c : string) :
  Permutation df df' -> NoDup (columns df) -> getcol df c = getcol df' c.
Proof.
  intros Hperm. induction Hperm as [| [n col] l l' Hp IH
                                    | [n1 c1] [n2 c2] l
                                    | l l' l'' Hp1 IH1 Hp2 IH2];
    intros Hnodup.
  - reflexivity.
  - simpl. inversion Hnodup; subst. now rewrite IH.
  - simpl. destruct (String.eqb c n1) eqn:E1, (String.eqb c n2) eqn:E2;
      try reflexivity.
    apply String.eqb_eq in E1, E2. subst.
    inversion Hnodup as [| ? ? Hnot _]. elim Hnot. now left.
  - rewrite IH1 by exact Hnodup. apply IH2.
    apply (Permutation_NoDup (l := columns l)); [| exact Hnodup].
    unfold columns. now apply Permutation_map.
Qed.

Lemma has_column_permutation (df df' : DataFrame) (c : string) :
  Permutation df df' -> has_column df c = has_column df' c.
Proof.
  intros Hperm.
  assert (Hcols : Permutation (columns df) (columns df'))
    by (unfold columns; now apply Permutation_map).
  destruct (has_column df c) eqn:E, (has_column df' c) eqn:E';
    try reflexivity.
  - apply has_column_In in E.
    apply (Permutation_in _ Hcols), has_column_In in E. congruence.
  - apply has_column_In in E'.
    apply (Permutation_in _ (Permutation_sym Hcols)), has_column_In in E'.
    congruence.
Qed.

(** X16: the order of the columns of the uploaded table does not matter:
    two tables with the same distinctly named columns, in any order, end the
    run alike. *)
Theorem column_order_irrelevant (df df' : DataFrame)
  (Hperm : Permutation df df') (Hnames : NoDup (columns df)) :
  run df = run df'.
Proof.
  assert (Hmiss : missing_columns df = missing_columns df').
  { unfold missing_columns. apply filter_ext. intros c.
    now rewrite (has_column_permutation df df' c Hperm). }
  unfold run. rewrite Hmiss.
  now rewrite !(getcol_permutation df df' _ Hperm Hnames).
Qed.

(** The claim on a one-row table with EC first and Na last. *)
Lemma column_order_irrelevant_witness :
  run (frame [23] [40] [24.3] [35.45] [61] [500]) =
  run [("EC", [500]); ("Ca", [40]); ("Mg", [24.3]); ("Cl", [35.45]);
       ("HCO3", [61]); ("Na", [23])].
Proof.
  apply (column_order_irrelevant (frame [23] [40] [24.3] [35.45] [61] [500])).
  - unfold frame.
    apply (perm_trans (l' := [("EC", [500]); ("Na", [23]); ("Ca", [40]);
                              ("Mg", [24.3]); ("Cl", [35.45]);
                              ("HCO3", [61])])).
    + apply Permutation_sym.
      apply (Permutation_cons_app
               [("Na", [23]); ("Ca", [40]); ("Mg", [24.3]); ("Cl", [35.45]);
                ("HCO3", [61])] [] ("EC", [500])).
      rewrite app_nil_r. apply Permutation_refl.
    + apply perm_skip.
      apply (Permutation_cons_app
               [("Ca", [40]); ("Mg", [24.3]); ("Cl", [35.45]);
                ("HCO3", [61])] [] ("Na", [23])).
      rewrite app_nil_r. apply Permutation_refl.
  - repeat constructor; simpl; intuition discriminate.
Defined.

Lemma lex_compare_eq (a b : Z * Z * Z) :
  FloatOrder.lex_compare a b = Eq -> a = b.
Proof.
  destruct a as [[a1 a2] a3], b as [[b1 b2] b3]. unfold FloatOrder.lex_compare.
  destruct (Z.compare_spec a1 b1); try discriminate.
  destruct (Z.compare_spec a2 b2); try discriminate.
  destruct (Z.compare_spec a3 b3); try discriminate.
  intros _. congruence.
Qed.

Lemma neg_zero_Prim2SF (x : float) :
  Prim2SF x = S754_zero true -> x = neg_zero.
Proof.
  intros H. rewrite <- (SF2Prim_Prim2SF x), H. reflexivity.
Qed.

(** Two cells that compare equal are the same cell, the two zeros apart. *)
Lemma le_cell_antisym (x y : float) :
  x <> neg_zero -> y <> neg_zero -> le_cell x y -> le_cell y x -> x = y.
Proof.
  intros Hx Hy. unfold le_cell. rewrite !leb_spec. unfold SFleb.
  rewrite !FloatOrder.SFcompare_key.
  pose proof (neg_zero_Prim2SF x) as Zx.
  pose proof (neg_zero_Prim2SF y) as Zy.
  intros H1 H2. apply Prim2SF_inj.
  destruct (FloatOrder.key (Prim2SF x)) as [kx |] eqn:Kx; [| discriminate].
  destruct (FloatOrder.key (Prim2SF y)) as [ky |] eqn:Ky; [| discriminate].
  assert (Hk : kx = ky).
  { apply lex_compare_eq.
    rewrite (FloatOrder.lex_compare_antisym kx ky) in H2.
    destruct (FloatOrder.lex_compare kx ky); simpl in *;
      try reflexivity; discriminate. }
  subst ky. revert Zx Zy Kx Ky.
  destruct (Prim2SF x) as [[] | [] | | [] mx ex];
    destruct (Prim2SF y) as [[] | [] | | [] my ey];
    simpl; intros Zx Zy Kx Ky; try discriminate;
    rewrite <- Ky in Kx; try discriminate Kx; try reflexivity;
    try (elim Hx; now apply Zx); try (elim Hy; now apply Zy);
    injection Kx; intros; f_equal; lia.
Qed.

(** Two sorted arrangements of the same cells coincide. *)
Lemma sorted_unique (l l' : Series) :
  Forall (fun q => q <> neg_zero) l ->
  StronglySorted le_cell l -> StronglySorted le_cell l' ->
  Permutation l l' -> l = l'.
Proof.
  intros Hz Hl. revert l'.
  induction Hl as [| a l Hl IH Ha]; intros l' Hl' Hperm.
  - now apply Permutation_nil in Hperm.
  - destruct Hl' as [| b l' Hl' Hb].
    + apply Permutation_sym, Permutation_nil in Hperm. discriminate.
    + inversion Hz as [| ? ? Hza Hzl]; subst.
      assert (Hab : a = b).
      { assert (Hin_a : In a (b :: l'))
          by (apply (Permutation_in _ Hperm); now left).
        assert (Hin_b : In b (a :: l))
          by (apply (Permutation_in _ (Permutation_sym Hperm)); now left).
        destruct Hin_a as [-> | Hin_a]; [reflexivity |].
        destruct Hin_b as [-> | Hin_b]; [reflexivity |].
        rewrite Forall_forall in Ha, Hb, Hzl.
        apply le_cell_antisym; auto. }
      subst b. f_equal. apply IH; [exact Hzl | exact Hl' |].
      now apply (Permutation_cons_inv (a := a)).
Qed.

Lemma dropna_permutation (s s' : Series) :
  Permutation s s' -> Permutation (dropna s) (dropna s').
Proof.
  unfold dropna. intros Hperm.
  induction Hperm as [| x l l' Hp IH | x y l | l l' l'' Hp1 IH1 Hp2 IH2];
    simpl.
  - apply Permutation_refl.
  - destruct (negb (is_nan x)); [now apply perm_skip | exact IH].
  - destruct (negb (is_nan x)), (negb (is_nan y));
      try apply Permutation_refl. apply perm_swap.
  - now apply (perm_trans IH1).
Qed.

Lemma median_permutation (s s' : Series) :
  Forall (fun q => q <> neg_zero) s -> Permutation s s' ->
  median s = median s'.
Proof.
  intros Hz Hperm. unfold median.
  assert (Hsort : sort_values (dropna s) = sort_values (dropna s')).
  { apply sorted_unique.
    - apply (Permutation_Forall
               (Permutation_sym (sort_values_permutation (dropna s)))).
      apply Forall_forall. intros q Hq. apply dropna_In in Hq.
      rewrite Forall_forall in Hz. now apply Hz.
    - apply sort_values_sorted, dropna_is_num.
    - apply sort_values_sorted, dropna_is_num.
    - apply (perm_trans (sort_values_permutation (dropna s))).
      apply (perm_trans (dropna_permutation s s' Hperm)).
      apply Permutation_sym, sort_values_permutation. }
  now rewrite Hsort.
Qed.

Lemma count_label_permutation (label : string) (col col' : list string) :
  Permutation col col' -> count_label label col = count_label label col'.
Proof.
  unfold count_label. intros Hperm.
  induction Hperm as [| x l l' Hp IH | x y l | l l' l'' Hp1 IH1 Hp2 IH2];
    simpl.
  - reflexivity.
  - destruct (String.eqb label x); simpl; now rewrite IH.
  - destruct (String.eqb label x), (String.eqb label y); reflexivity.
  - now rewrite IH1.
Qed.

Lemma value_share_permutation (label : string) (col col' : list string) :
  Permutation col col' -> value_share col label = value_share col' label.
Proof.
  intros Hperm. unfold value_share.
  now rewrite (count_label_permutation label col col' Hperm),
    (Permutation_length Hperm).
Qed.

Lemma series_div_map {A : Type} (f g : A -> float) (rows : list A) :
  series_div (map f rows) (map g rows) = map (fun r => f r / g r) rows.
Proof. induction rows as [| r rows IH]; simpl; [| rewrite IH]; reflexivity. Qed.

Lemma classify_rows_map {A : Type} (f g : A -> float) (rows : list A) :
  classify_rows (map f rows) (map g rows) =
  map (fun r => classify_salinisation (f r) (g r)) rows.
Proof. induction rows as [| r rows IH]; simpl; [| rewrite IH]; reflexivity. Qed.

(** X17: the order of the samples does not matter to the recommendation:
    two tables with the same rows in any order get the same text, provided
    no Na/Cl ratio is the negative zero (whose place among the sorted zeros
    the comparison does not fix). *)
Theorem sample_order_irrelevant (rows rows' : list Sample)
  (Hperm : Permutation rows rows')
  (Hzero : Forall (fun q => q <> neg_zero) (Na_Cl (table_of rows))) :
  generate_overall_recommendation (table_of rows) =
  generate_overall_recommendation (table_of rows').
Proof.
  unfold generate_overall_recommendation, overall_branch. f_equal.
  unfold table_of in *. simpl in *. unfold series_mgL_to_meq in *.
  rewrite !map_map in *. rewrite !series_div_map in *.
  rewrite !classify_rows_map, !map_map.
  assert (Hstatus : Permutation
            (map (fun r => fst (classify_salinisation (sample_EC r)
                                                      (sample_Cl r))) rows)
            (map (fun r => fst (classify_salinisation (sample_EC r)
                                                      (sample_Cl r))) rows'))
    by now apply Permutation_map.
  rewrite !(value_share_permutation _ _ _ Hstatus).
  f_equal. apply median_permutation; [exact Hzero |].
  now apply Permutation_map.
Qed.

(** The claim on two samples, one Saline and one Fresh, swapped. *)
Lemma sample_order_irrelevant_witness :
  generate_overall_recommendation
    (table_of [mkSample 230 40 24.3 354.5 61 2000;
               mkSample 23 40 24.3 35.45 61 500]) =
  generate_overall_recommendation
    (table_of [mkSample 23 40 24.3 35.45 61 500;
               mkSample 230 40 24.3 354.5 61 2000]).
Proof.
  apply (sample_order_irrelevant
           [mkSample 230 40 24.3 354.5 61 2000;
            mkSample 23 40 24.3 35.45 61 500]).
  - apply perm_swap.
  - repeat constructor; vm_compute; intros H;
      apply (f_equal Prim2SF) in H; vm_compute in H; discriminate H.
Defined.
